(** * Video-Download: the browser front end [js/app.js]

    A shallow embedding of the [VideoDownloader] class: the URL classifier,
    the form validation, the dispatch client, the run locator, the status
    poller and the persistence of the two repository fields, followed by
    the properties of the specification that concern them.

    JavaScript strings are modelled as [string] (the UTF-8 bytes of the
    text).  Every needle the program searches for is ASCII, so a substring
    test on the bytes agrees with the one on UTF-16 code units. *)

From Stdlib Require Import String Ascii List NArith Bool Lia DecimalString.
From stdpp Require Import gmap strings.
Import ListNotations.

Local Open Scope string_scope.
Local Open Scope list_scope.

(** ** Strings *)

Module JsString.

(** [s.startsWith(t)]: also the test a regular expression performs for a
    literal at the current position. *)
Definition startsWith (s t : string) : bool := String.prefix t s.

(** [s.includes(t)]: [t] occurs in [s] at some position. *)
Fixpoint includes (s t : string) : bool :=
  startsWith s t ||
  match s with
  | EmptyString => false
  | String _ s' => includes s' t
  end.

(** The text of [s] after its first [n] characters. *)
Fixpoint drop (n : nat) (s : string) : string :=
  match n, s with
  | O, _ => s
  | S _, EmptyString => EmptyString
  | S n', String _ s' => drop n' s'
  end.

(** [s.toLowerCase()] on the ASCII letters; the program never calls it,
    it only serves to state what a case-insensitive test would accept. *)
Definition lower_ascii (c : ascii) : ascii :=
  let n := nat_of_ascii c in
  if (65 <=? n)%nat && (n <=? 90)%nat then ascii_of_nat (n + 32) else c.

Fixpoint toLowerCase (s : string) : string :=
  match s with
  | EmptyString => EmptyString
  | String c s' => String (lower_ascii c) (toLowerCase s')
  end.

(** Decimal rendering of a number inside a template literal. *)
Definition ofN (n : N) : string := NilZero.string_of_uint (N.to_uint n).

End JsString.

Import JsString.

(** ** URL classifier and form validation *)

(** [getWorkflowType(url)] *)
Definition getWorkflowType (url : string) : string :=
  if includes url "youtube.com" || includes url "youtu.be" then
    "download-youtube"
  else if includes url "tiktok.com" then
    "download-tiktok"
  else
    "download-video".

(** The line terminators, which [.] of a regular expression does not match:
    LF, CR, and U+2028 and U+2029 (bytes E2 80 A8 and E2 80 A9). *)
Definition startsWithLineTerminator (s : string) : bool :=
  startsWith s (String (ascii_of_nat 10) EmptyString)
  || startsWith s (String (ascii_of_nat 13) EmptyString)
  || startsWith s
       (String (ascii_of_nat 226) (String (ascii_of_nat 128)
          (String (ascii_of_nat 168) EmptyString)))
  || startsWith s
       (String (ascii_of_nat 226) (String (ascii_of_nat 128)
          (String (ascii_of_nat 169) EmptyString))).

(** [/.+/] anchored at the start of [s]: at least one character that is not
    a line terminator. *)
Definition dotPlus (s : string) : bool :=
  match s with
  | EmptyString => false
  | String _ _ => negb (startsWithLineTerminator s)
  end.

(** A regular expression [^(p1|p2|..)rest]: some alternative is a prefix of
    the input and [rest] accepts what follows it. *)
Definition alt (alternatives : list string) (rest : string -> bool)
    (s : string) : bool :=
  existsb (fun p => startsWith s p && rest (drop (String.length p) s))
          alternatives.

(** [(https?:\/\/)?]: the group is optional, so the empty prefix is one of
    the alternatives. *)
Definition schemeOpt : list string := ["https://"; "http://"; ""].
(** [(www\.)?] *)
Definition wwwOpt : list string := ["www."; ""].

(** [/^(https?:\/\/)?(www\.)?(youtube\.com|youtu\.be)\/.+/] *)
Definition youtubeRegex : string -> bool :=
  alt schemeOpt (alt wwwOpt (alt ["youtube.com"; "youtu.be"] (alt ["/"] dotPlus))).

(** [/^(https?:\/\/)?(www\.)?tiktok\.com\/.+/] *)
Definition tiktokRegex : string -> bool :=
  alt schemeOpt (alt wwwOpt (alt ["tiktok.com"] (alt ["/"] dotPlus))).

(** [isValidUrl(url)] *)
Definition isValidUrl (url : string) : bool :=
  youtubeRegex url || tiktokRegex url.

(** The object [getFormData()] returns. *)
Record formData := FormData {
  videoUrl : string;
  githubToken : string;
  downloadType : string;
  repoOwner : string;
  repoName : string
}.

(** [!s] for a string: only the empty string is falsy. *)
Definition str_falsy (s : string) : bool :=
  match s with EmptyString => true | _ => false end.

(** ** JavaScript values *)

(** The values [JSON.parse] produces, and [undefined].  Numbers are the
    natural numbers, which covers the run identifiers of the API (integers
    that a JavaScript number holds exactly). *)
#[warnings="-register-all"]
Inductive jsval : Type :=
| JUndefined
| JNull
| JBool (b : bool)
| JNum (n : N)
| JStr (s : string)
| JArr (items : list jsval)
| JObj (fields : list (string * jsval)).

(** An [Error] object; the program reads only its [message]. *)
Record js_error := Error { message : string }.

(** The outcome of an expression that may throw. *)
Definition result (A : Type) : Type := js_error + A.

(** Truthiness, as [!v], [v ? a : b] and [v || w] test it. *)
Definition truthy (v : jsval) : bool :=
  match v with
  | JUndefined | JNull => false
  | JBool b => b
  | JNum n => negb (N.eqb n 0)
  | JStr s => negb (str_falsy s)
  | JArr _ | JObj _ => true
  end.

(** [String(v)], the conversion a template literal and [new Error(v)]
    apply, on the values where it gives a string that is the decimal or
    literal rendering ([printable] below names them). *)
Fixpoint toString (v : jsval) : string :=
  match v with
  | JUndefined => "undefined"
  | JNull => "null"
  | JBool true => "true"
  | JBool false => "false"
  | JNum n => ofN n
  | JStr s => s
  | JArr items =>
      String.concat ","
        (map (fun x => match x with
                       | JUndefined | JNull => ""
                       | _ => toString x
                       end) items)
  | JObj _ => "[object Object]"
  end.

(** [v === 'text'] *)
Definition strictEqStr (v : jsval) (text : string) : bool :=
  match v with
  | JStr s => String.eqb s text
  | _ => false
  end.

Fixpoint lookupField (fields : list (string * jsval)) (name : string) : jsval :=
  match fields with
  | [] => JUndefined
  | (k, v) :: rest => if String.eqb k name then v else lookupField rest name
  end.

Definition cannotRead (base name : string) : js_error :=
  Error ("Cannot read properties of " +:+ base +:+ " (reading '" +:+ name +:+ "')").

(** [v.name] for the names the program reads ([message], [workflow_runs],
    [id], [status], [conclusion]): none of them is defined on a primitive
    or on an array. *)
Definition getProp (v : jsval) (name : string) : result jsval :=
  match v with
  | JUndefined => inl (cannotRead "undefined" name)
  | JNull => inl (cannotRead "null" name)
  | JObj fields => inr (lookupField fields name)
  | _ => inr JUndefined
  end.

(** [v[0]] *)
Definition getFirst (v : jsval) : result jsval :=
  match v with
  | JUndefined => inl (cannotRead "undefined" "0")
  | JNull => inl (cannotRead "null" "0")
  | JArr items => inr (hd JUndefined items)
  | JStr (String c _) => inr (JStr (String c EmptyString))
  | JObj fields => inr (lookupField fields "0")
  | _ => inr JUndefined
  end.

(** ** The page and its environment *)

(** A request handed to [fetch].  [payload] is the object whose
    [JSON.stringify] is the body. *)
Record request := Request {
  method : string;
  url : string;
  headers : list (string * string);
  payload : option jsval
}.

(** An answer: [json] is what [await response.json()] gives, a value or a
    rejection when the body does not parse. *)
Record response := Response {
  status : N;
  statusText : string;
  json : result jsval
}.

(** [response.ok]: the status is in the range 200-299. *)
Definition ok (r : response) : bool :=
  (200 <=? status r)%N && (status r <=? 299)%N.

(** The effects of the page that can be observed, in the order they happen. *)
Inductive event : Type :=
| PreventDefault
| SetItem (key value : string)
| ShowStatus (text type : string)
| SetLoading (loading : bool)
| ShowWorkflowLink (href : string)
| LoadDownloads
| ConsoleError (label : string) (error : js_error)
| Delay (ms : N)
| SetTimeout (ms : N)
| Fetch (r : request).

(** The state the program reads and writes.  [network n] is how the [n]-th
    request of the session ends: [fetch] rejects, or an answer arrives. *)
Record world := World {
  localStorage : gmap string string;
  form : formData;
  clock : string;
  network : nat -> result response;
  sent : nat
}.

(** A computation: from a state to an outcome, the state it leaves and the
    effects it had. *)
Definition M (A : Type) : Type := world -> result A * world * list event.

Definition ret {A} (a : A) : M A := fun w => (inr a, w, []).
Definition throw {A} (e : js_error) : M A := fun w => (inl e, w, []).

Definition bind {A B} (m : M A) (k : A -> M B) : M B :=
  fun w =>
    match m w with
    | (inl e, w1, t1) => (inl e, w1, t1)
    | (inr a, w1, t1) =>
        match k a w1 with
        | (r, w2, t2) => (r, w2, t1 ++ t2)
        end
    end.

#[export] Instance M_ret : MRet M := @ret.
#[export] Instance M_bind : MBind M := fun A B k m => bind m k.

(** [try { m } catch (error) { handler error }] *)
Definition tryCatch {A} (m : M A) (handler : js_error -> M A) : M A :=
  fun w =>
    match m w with
    | (inl e, w1, t1) =>
        match handler e w1 with
        | (r, w2, t2) => (r, w2, t1 ++ t2)
        end
    | (inr a, w1, t1) => (inr a, w1, t1)
    end.

(** [try { m } finally { cleanup }] for a [cleanup] that neither returns nor
    throws on its own account. *)
Definition tryFinally {A} (m : M A) (cleanup : M unit) : M A :=
  fun w =>
    match m w with
    | (r, w1, t1) =>
        match cleanup w1 with
        | (inl e, w2, t2) => (inl e, w2, t1 ++ t2)
        | (inr _, w2, t2) => (r, w2, t1 ++ t2)
        end
    end.

Definition emit (e : event) : M unit := fun w => (inr tt, w, [e]).
Definition liftResult {A} (r : result A) : M A := fun w => (r, w, []).
Definition getWorld : M world := fun w => (inr w, w, []).

(** ** The [VideoDownloader] class *)

Definition setStorage (w : world) (store : gmap string string) : world :=
  World store (form w) (clock w) (network w) (sent w).
Definition setForm (w : world) (f : formData) : world :=
  World (localStorage w) f (clock w) (network w) (sent w).
Definition setSent (w : world) (n : nat) : world :=
  World (localStorage w) (form w) (clock w) (network w) n.

(** [localStorage.getItem(key)]: the stored string, or [null]. *)
Definition getItem (key : string) : M (option string) :=
  fun w => (inr (localStorage w !! key), w, []).

(** [localStorage.setItem(key, value)] *)
Definition setItem (key value : string) : M unit :=
  fun w => (inr tt, setStorage w (<[key := value]> (localStorage w)),
            [SetItem key value]).

(** [document.getElementById('repoOwner').value = v] and the same for
    [repoName]. *)
Definition setRepoOwnerInput (v : string) : M unit :=
  fun w =>
    let f := form w in
    (inr tt,
     setForm w (FormData (videoUrl f) (githubToken f) (downloadType f) v (repoName f)),
     []).
Definition setRepoNameInput (v : string) : M unit :=
  fun w =>
    let f := form w in
    (inr tt,
     setForm w (FormData (videoUrl f) (githubToken f) (downloadType f) (repoOwner f) v),
     []).

(** [if (saved) input.value = saved]: [null] and the empty string are
    falsy. *)
Definition whenSaved (saved : option string) (assign : string -> M unit) : M unit :=
  match saved with
  | Some v => if str_falsy v then ret tt else assign v
  | None => ret tt
  end.

(** [loadSavedRepoInfo()] *)
Definition loadSavedRepoInfo : M unit :=
  savedOwner ← getItem "repoOwner";
  savedRepo ← getItem "repoName";
  whenSaved savedOwner setRepoOwnerInput;;
  whenSaved savedRepo setRepoNameInput.

(** [saveRepoInfo(owner, repo)] *)
Definition saveRepoInfo (owner repo : string) : M unit :=
  setItem "repoOwner" owner;;
  setItem "repoName" repo.

(** [getFormData()] *)
Definition getFormData : M formData := fun w => (inr (form w), w, []).

(** [showStatus(message, type)] *)
Definition showStatus (text type : string) : M unit := emit (ShowStatus text type).

(** [setLoading(loading)] *)
Definition setLoading (loading : bool) : M unit := emit (SetLoading loading).

(** [loadDownloads()]: writes the placeholder into the downloads list. *)
Definition loadDownloads : M unit := emit LoadDownloads.

(** [showWorkflowLink(owner, repo, runId)] *)
Definition showWorkflowLink (owner repo : string) (runId : jsval) : M unit :=
  emit (ShowWorkflowLink
          ("https://github.com/" +:+ owner +:+ "/" +:+ repo +:+ "/actions/runs/"
             +:+ toString runId)).

(** [init()], without the registration of the submit handler. *)
Definition init : M unit :=
  loadDownloads;;
  loadSavedRepoInfo.

(** [validateForm(data)] *)
Definition validateForm (data : formData) : M bool :=
  if str_falsy (videoUrl data) || str_falsy (githubToken data)
     || str_falsy (repoOwner data) || str_falsy (repoName data)
  then showStatus "Please fill in all required fields" "error";; ret false
  else if negb (isValidUrl (videoUrl data))
  then showStatus "Please enter a valid YouTube or TikTok URL" "error";; ret false
  else ret true.

(** [fetch], in two halves: the request leaves, and later the promise
    settles with the answer the network gives to that request. *)
Definition send (r : request) : M nat :=
  fun w => (inr (sent w), setSent w (S (sent w)), [Fetch r]).
Definition settle (ticket : nat) : M response :=
  fun w => (network w ticket, w, []).

(** [await fetch(url, options)] *)
Definition fetch (r : request) : M response :=
  ticket ← send r;
  settle ticket.

Definition apiHeaders (token : string) : list (string * string) :=
  [("Authorization", "token " +:+ token);
   ("Accept", "application/vnd.github.v3+json")].

(** [getLatestWorkflowRun(data, workflowType)] *)
Definition getLatestWorkflowRun (data : formData) (workflowType : string) : M jsval :=
  emit (Delay 2000);;
  let apiUrl := "https://api.github.com/repos/" +:+ repoOwner data +:+ "/"
                  +:+ repoName data +:+ "/actions/runs" in
  response ← fetch (Request "GET" apiUrl (apiHeaders (githubToken data)) None);
  if ok response then
    data ← liftResult (json response);
    runs ← liftResult (getProp data "workflow_runs");
    latestRun ← liftResult (getFirst runs);
    if truthy latestRun then liftResult (getProp latestRun "id") else ret JNull
  else
    ret JNull.

(** The object [triggerWorkflow] resolves to. *)
Record dispatchResult := DispatchResult {
  success : bool;
  runId : jsval
}.

(** [triggerWorkflow(data)] *)
Definition triggerWorkflow (data : formData) : M dispatchResult :=
  let workflowType := getWorkflowType (videoUrl data) in
  let apiUrl := "https://api.github.com/repos/" +:+ repoOwner data +:+ "/"
                  +:+ repoName data +:+ "/dispatches" in
  w ← getWorld;
  let payload :=
    JObj [("event_type", JStr workflowType);
          ("client_payload",
           JObj [("video_url", JStr (videoUrl data));
                 ("download_type", JStr (downloadType data));
                 ("timestamp", JStr (clock w))])] in
  response ← fetch (Request "POST" apiUrl
                      (apiHeaders (githubToken data)
                         ++ [("Content-Type", "application/json")])
                      (Some payload));
  (if negb (ok response) then
     let errorData := match json response with
                      | inl _ => JObj []
                      | inr v => v
                      end in
     serverMessage ← liftResult (getProp errorData "message");
     throw (Error (if truthy serverMessage then toString serverMessage
                   else "HTTP " +:+ ofN (status response) +:+ ": "
                          +:+ statusText response))
   else ret tt);;
  runId ← getLatestWorkflowRun data workflowType;
  ret (DispatchResult true runId).

(** The request of [checkWorkflowStatus(formData, runId)]. *)
Definition statusRequest (data : formData) (runId : jsval) : request :=
  Request "GET"
    ("https://api.github.com/repos/" +:+ repoOwner data +:+ "/" +:+ repoName data
       +:+ "/actions/runs/" +:+ toString runId)
    (apiHeaders (githubToken data)) None.

(** [checkWorkflowStatus], up to its [await]: the request leaves. *)
Definition checkWorkflowStatusSend (data : formData) (runId : jsval) : M nat :=
  send (statusRequest data runId).

(** [checkWorkflowStatus], from the answer to its request on. *)
Definition checkWorkflowStatusSettle (ticket : nat) : M jsval :=
  response ← settle ticket;
  if ok response then liftResult (json response)
  else throw (Error "Failed to check workflow status").

(** [checkWorkflowStatus(formData, runId)] *)
Definition checkWorkflowStatus (data : formData) (runId : jsval) : M jsval :=
  ticket ← checkWorkflowStatusSend data runId;
  checkWorkflowStatusSettle ticket.

Definition maxAttempts : N := 30.

(** A tick of [poll] that has sent its request and awaits the answer. *)
Record pending := Pending {
  pendingData : formData;
  pendingRun : jsval;
  attempts : N;
  ticket : nat
}.

(** [poll], up to its [await]: the attempt is counted and the request of
    [checkWorkflowStatus] leaves. *)
Definition pollSend (data : formData) (runId : jsval) (attempts : N) : M pending :=
  let attempts := N.succ attempts in
  ticket ← checkWorkflowStatusSend data runId;
  ret (Pending data runId attempts ticket).

(** [poll], from the answer on.  The result tells whether [setTimeout(poll,
    10000)] was called. *)
Definition pollSettle (p : pending) : M bool :=
  tryCatch
    (status ← checkWorkflowStatusSettle (ticket p);
     conclusion ← liftResult (getProp status "conclusion");
     if strictEqStr conclusion "success" then
       showStatus "Download completed successfully!" "success";;
       loadDownloads;;
       ret false
     else if strictEqStr conclusion "failure" then
       showStatus "Download failed. Check the workflow logs for details." "error";;
       ret false
     else
       lifecycle ← liftResult (getProp status "status");
       if strictEqStr lifecycle "in_progress" && (attempts p <? maxAttempts)%N then
         showStatus ("Download in progress... (" +:+ ofN (attempts p) +:+ "/"
                       +:+ ofN maxAttempts +:+ ")") "info";;
         emit (SetTimeout 10000);;
         ret true
       else if (maxAttempts <=? attempts p)%N then
         showStatus "Polling timeout. Please check workflow manually." "warning";;
         ret false
       else
         ret false)
    (fun error =>
       emit (ConsoleError "Error polling workflow status:" error);;
       ret false).

(** [pollWorkflowStatus(formData, runId)] up to the first [await]: the caller
    does not await it, so this is all that runs inside [handleSubmit]. *)
Definition pollWorkflowStatus (data : formData) (runId : jsval) : M (option pending) :=
  if negb (truthy runId) then ret None
  else
    p ← pollSend data runId 0;
    ret (Some p).

(** How a run of the poll loop ends: no tick is scheduled any more, or the
    model stopped unrolling it. *)
Inductive pollEnd := Stopped | Unrolled.

(** The ticks after [pollWorkflowStatus] returned: the pending answer is
    handled and, when a timer was set, the next tick starts. *)
Fixpoint pollLoop (fuel : nat) (p : pending) : M pollEnd :=
  match fuel with
  | O => ret Unrolled
  | S fuel' =>
      again ← pollSettle p;
      if again : bool then
        next ← pollSend (pendingData p) (pendingRun p) (attempts p);
        pollLoop fuel' next
      else
        ret Stopped
  end.

(** The [try ... catch ... finally] statement of [handleSubmit].  The result
    is the poll tick it leaves pending. *)
Definition dispatchAndPoll (formData : formData) : M (option pending) :=
  tryFinally
    (tryCatch
       (result ← triggerWorkflow formData;
        if success result then
          showStatus ("Workflow triggered successfully! Run ID: "
                        +:+ toString (runId result)) "success";;
          showWorkflowLink (repoOwner formData) (repoName formData) (runId result);;
          pollWorkflowStatus formData (runId result)
        else
          throw (Error ""))
       (fun error =>
          showStatus ("Error: " +:+ message error) "error";;
          ret None))
    (setLoading false).

(** [handleSubmit(e)] *)
Definition handleSubmit : M (option pending) :=
  emit PreventDefault;;
  formData ← getFormData;
  valid ← validateForm formData;
  if negb valid then ret None
  else
    saveRepoInfo (repoOwner formData) (repoName formData);;
    setLoading true;;
    showStatus "Triggering download workflow..." "info";;
    dispatchAndPoll formData.

(** A submission from the click to the end of its poll loop. *)
Definition submission (fuel : nat) : M pollEnd :=
  left ← handleSubmit;
  match left with
  | None => ret Stopped
  | Some p => pollLoop fuel p
  end.

(** The status poller on its own: [pollWorkflowStatus(formData, runId)] and
    the ticks that follow. *)
Definition poller (fuel : nat) (data : formData) (runId : jsval) : M pollEnd :=
  start ← pollWorkflowStatus data runId;
  match start with
  | None => ret Stopped
  | Some p => pollLoop fuel p
  end.

(** ** Observations *)

Definition outcome {A} (m : M A) (w : world) : result A := (m w).1.1.
Definition after {A} (m : M A) (w : world) : world := (m w).1.2.
Definition effects {A} (m : M A) (w : world) : list event := (m w).2.

Definition isFetch (e : event) : bool :=
  match e with Fetch _ => true | _ => false end.

Definition isTimer (e : event) : bool :=
  match e with SetTimeout _ => true | _ => false end.

(** The texts the page showed, oldest first, each with its type. *)
Fixpoint shown (t : list event) : list (string * string) :=
  match t with
  | [] => []
  | ShowStatus text type :: t' => (text, type) :: shown t'
  | _ :: t' => shown t'
  end.

(** What the status area displays at the end of a trace. *)
Definition displayed (t : list event) : option (string * string) :=
  last (shown t).

Definition successText : string := "Download completed successfully!".
Definition failureText : string := "Download failed. Check the workflow logs for details.".
Definition timeoutText : string := "Polling timeout. Please check workflow manually.".
Definition progressText (n : N) : string :=
  "Download in progress... (" +:+ ofN n +:+ "/" +:+ ofN maxAttempts +:+ ")".

(** The three messages that close a poll loop. *)
Definition isTerminalReport (e : event) : bool :=
  match e with
  | ShowStatus text _ =>
      String.eqb text successText || String.eqb text failureText
      || String.eqb text timeoutText
  | _ => false
  end.

(** The run status an answer carries, as the poller reads it: the
    [conclusion] and the [status] of the parsed body of a 2xx answer. *)
Definition runStatus (a : result response) : option (jsval * jsval) :=
  match a with
  | inr resp =>
      if ok resp then
        match json resp with
        | inr body =>
            match getProp body "conclusion", getProp body "status" with
            | inr conclusion, inr lifecycle => Some (conclusion, lifecycle)
            | _, _ => None
            end
        | inl _ => None
        end
      else None
  | inl _ => None
  end.

Definition concluded (conclusion : jsval) : bool :=
  strictEqStr conclusion "success" || strictEqStr conclusion "failure".

(** The run is [in_progress] and has no conclusion yet. *)
Definition inProgress (a : result response) : bool :=
  match runStatus a with
  | Some (conclusion, lifecycle) =>
      negb (concluded conclusion) && strictEqStr lifecycle "in_progress"
  | None => false
  end.

(** The run has conclusion [success]. *)
Definition succeeded (a : result response) : bool :=
  match runStatus a with
  | Some (conclusion, _) => strictEqStr conclusion "success"
  | None => false
  end.

(** Neither concluded by [success] or [failure] nor [in_progress]: a run
    that is [queued], or [completed] with conclusion [cancelled]. *)
Definition stalled (a : result response) : bool :=
  match runStatus a with
  | Some (conclusion, lifecycle) =>
      negb (concluded conclusion) && negb (strictEqStr lifecycle "in_progress")
  | None => false
  end.

(** The effects of [k] ticks that find the run in progress, the first of
    them counted as attempt [first]: the progress line, the timer, and the
    request of the tick the timer starts. *)
Definition progressRounds (data : formData) (runId : jsval) (first : N) (k : nat)
    : list event :=
  flat_map
    (fun i => [ShowStatus (progressText (first + N.of_nat i)) "info";
               SetTimeout 10000;
               Fetch (statusRequest data runId)])
    (seq 0 k).

(** Two states that differ at most in the number of requests sent. *)
Definition sameButSent (w w' : world) : Prop :=
  localStorage w' = localStorage w /\ form w' = form w
  /\ clock w' = clock w /\ network w' = network w.

(** A computation that leaves the store, the inputs, the clock and the
    network alone. *)
Definition framed {A} (m : M A) : Prop :=
  forall w, sameButSent w (after m w).

(** ** Inputs and notions used in the statements *)

(** [t] occurs in [s]. *)
Definition occursIn (t s : string) : Prop :=
  exists before rest, s = before +:+ t +:+ rest.

(** The state after [saveRepoInfo]. *)
Definition saved (w : world) : world :=
  setStorage w (<["repoName" := repoName (form w)]>
                  (<["repoOwner" := repoOwner (form w)]> (localStorage w))).

(** The effects of a valid submission before its [try] statement. *)
Definition submitPrefix (data : formData) : list event :=
  [PreventDefault; SetItem "repoOwner" (repoOwner data);
   SetItem "repoName" (repoName data); SetLoading true;
   ShowStatus "Triggering download workflow..." "info"].

(** The request [triggerWorkflow] sends. *)
Definition dispatchRequest (data : formData) (now : string) : request :=
  Request "POST"
    ("https://api.github.com/repos/" +:+ repoOwner data +:+ "/" +:+ repoName data
       +:+ "/dispatches")
    [("Authorization", "token " +:+ githubToken data);
     ("Accept", "application/vnd.github.v3+json");
     ("Content-Type", "application/json")]
    (Some (JObj [("event_type", JStr (getWorkflowType (videoUrl data)));
                 ("client_payload",
                  JObj [("video_url", JStr (videoUrl data));
                        ("download_type", JStr (downloadType data));
                        ("timestamp", JStr now)])])).

(** A form filled in with a short YouTube link. *)
Definition sampleForm : formData :=
  FormData "https://youtu.be/abc" "token" "video" "octo" "videos".

(** A network that is down: every [fetch] rejects. *)
Definition offline : nat -> result response :=
  fun _ => inl (Error "Failed to fetch").

(** A fresh page: empty storage, nothing sent yet. *)
Definition sampleWorld (data : formData) (net : nat -> result response) : world :=
  World ∅ data "2024-01-01T00:00:00.000Z" net 0.

(** A network whose answer to the dispatch is HTTP 422 with the body
    [{message: 'Bad request'}]. *)
Definition rejecting : nat -> result response :=
  fun _ => inr (Response 422 "Unprocessable Entity"
                  (inr (JObj [("message", JStr "Bad request")]))).

(** A network whose answers are HTTP 500 with a body that is not JSON. *)
Definition failing : nat -> result response :=
  fun _ => inr (Response 500 "Internal Server Error"
                  (inl (Error "Unexpected token '<'"))).

(** A network on which the dispatch is accepted and the repository lists no
    run. *)
Definition noRuns : nat -> result response :=
  fun n =>
    match n with
    | O => inr (Response 204 "No Content" (inl (Error "Unexpected end of JSON input")))
    | _ => inr (Response 200 "OK" (inr (JObj [("workflow_runs", JArr [])])))
    end.

(** A 200 answer to a status request, carrying a run in the given state. *)
Definition runAnswer (lifecycle : string) (conclusion : jsval) : result response :=
  inr (Response 200 "OK"
         (inr (JObj [("id", JNum 7); ("status", JStr lifecycle);
                     ("conclusion", conclusion)]))).

(** A network on which the run is in progress at every request. *)
Definition alwaysInProgress : nat -> result response :=
  fun _ => runAnswer "in_progress" JNull.

(** A run that is in progress at the first two ticks and has succeeded at
    the third. *)
Definition succeedsAtThird : nat -> result response :=
  fun n =>
    match n with
    | 0 | 1 => runAnswer "in_progress" JNull
    | _ => runAnswer "completed" (JStr "success")
    end.

(** A run that is in progress at the first two ticks and queued again at the
    third. *)
Definition queuedAtThird : nat -> result response :=
  fun n =>
    match n with
    | 0 | 1 => runAnswer "in_progress" JNull
    | 2 => runAnswer "queued" JNull
    | _ => runAnswer "completed" (JStr "success")
    end.

(** A network that fails once, for the first request, and then answers that
    the run has succeeded. *)
Definition failsOnce : nat -> result response :=
  fun n =>
    match n with
    | 0 => inl (Error "Failed to fetch")
    | _ => runAnswer "completed" (JStr "success")
    end.

(** A computation all of whose effects satisfy [P], from every state. *)
Definition always (P : event -> Prop) {A} (m : M A) : Prop :=
  forall w, Forall P (effects m w).

(** The request is a dispatch: the only [POST] the page makes. *)
Definition isDispatch (e : event) : bool :=
  match e with
  | Fetch r => String.eqb (method r) "POST"
  | _ => false
  end.

Definition isSetItem (e : event) : bool :=
  match e with SetItem _ _ => true | _ => false end.

(** The address of the repository on the API. *)
Definition apiBase (data : formData) : string :=
  "https://api.github.com/repos/" +:+ repoOwner data +:+ "/" +:+ repoName data +:+ "/".

(** What a submission of [data] may do: requests go to the repository on
    the API and carry the credential and the media type, only the two
    repository fields are stored, and a status has one of the four types. *)
Definition disciplined (data : formData) (e : event) : Prop :=
  match e with
  | Fetch r =>
      (exists path, url r = apiBase data +:+ path)
      /\ (exists more, headers r = apiHeaders (githubToken data) ++ more)
  | SetItem key value =>
      (key = "repoOwner" /\ value = repoOwner data)
      \/ (key = "repoName" /\ value = repoName data)
  | ShowStatus _ type => In type ["info"; "success"; "error"; "warning"]
  | _ => True
  end.

(** The request [getLatestWorkflowRun] sends. *)
Definition listingRequest (data : formData) : request :=
  Request "GET"
    ("https://api.github.com/repos/" +:+ repoOwner data +:+ "/" +:+ repoName data
       +:+ "/actions/runs")
    (apiHeaders (githubToken data)) None.

(** The run has conclusion [failure]. *)
Definition failedRun (a : result response) : bool :=
  match runStatus a with
  | Some (conclusion, _) => strictEqStr conclusion "failure"
  | None => false
  end.

(** The answer carries a run that has neither succeeded nor failed, whatever
    its lifecycle status. *)
Definition unconcluded (a : result response) : bool :=
  match runStatus a with
  | Some (conclusion, _) => negb (concluded conclusion)
  | None => false
  end.

Definition isSetLoading (e : event) : bool :=
  match e with SetLoading _ => true | _ => false end.

(** The message of a refused dispatch that names only the status line. *)
Definition statusLine (r : response) : string :=
  "HTTP " +:+ ofN (status r) +:+ ": " +:+ statusText r.

(** A run that is in progress for 29 ticks and has failed at the 30th. *)
Definition failsAtLast : nat -> result response :=
  fun n => if (n <? 29)%nat then runAnswer "in_progress" JNull
           else runAnswer "completed" (JStr "failure").

(** A run that is in progress for 29 ticks and queued at the 30th. *)
Definition queuedAtLast : nat -> result response :=
  fun n => if (n <? 29)%nat then runAnswer "in_progress" JNull
           else runAnswer "queued" JNull.

(** A network that accepts the dispatch and then goes down. *)
Definition downAfterDispatch : nat -> result response :=
  fun n =>
    match n with
    | O => inr (Response 204 "No Content" (inl (Error "Unexpected end of JSON input")))
    | _ => inl (Error "Failed to fetch")
    end.

(** A network that accepts the dispatch, lists run 7 first, finds it in
    progress once and then succeeded. *)
Definition smooth : nat -> result response :=
  fun n =>
    match n with
    | 0 => inr (Response 204 "No Content" (inl (Error "Unexpected end of JSON input")))
    | 1 => inr (Response 200 "OK"
                  (inr (JObj [("total_count", JNum 2);
                              ("workflow_runs",
                               JArr [JObj [("id", JNum 7)]; JObj [("id", JNum 6)]])])))
    | 2 => runAnswer "in_progress" JNull
    | _ => runAnswer "completed" (JStr "success")
    end.

(** The dispatch of the next request is accepted and the listing that
    follows names [id], a truthy value, as the [id] of its first run. *)
Definition located (w : world) (id : jsval) : Prop :=
  exists r1 r2 fields run others,
    network w (sent w) = inr r1 /\ ok r1 = true
    /\ network w (S (sent w)) = inr r2 /\ ok r2 = true
    /\ json r2 = inr (JObj fields)
    /\ lookupField fields "workflow_runs" = JArr (JObj run :: others)
    /\ lookupField run "id" = id
    /\ truthy id = true.

(** The effects of [handleSubmit] when the run [id] is located. *)
Definition submitTrace (data : formData) (now : string) (id : jsval) : list event :=
  submitPrefix data
    ++ [Fetch (dispatchRequest data now);
        Delay 2000;
        Fetch (listingRequest data);
        ShowStatus ("Workflow triggered successfully! Run ID: " +:+ toString id)
          "success";
        ShowWorkflowLink
          ("https://github.com/" +:+ repoOwner data +:+ "/" +:+ repoName data
             +:+ "/actions/runs/" +:+ toString id);
        Fetch (statusRequest data id);
        SetLoading false].

(** The values that the code converts to a string as [toString] does.
    [String(v)] is [toString v] for [undefined], [null], the booleans and
    the strings; for a number when it is a safe integer, below 2^53 (a
    larger one is rounded, or printed with an exponent); for an object
    when it has no [toString] key of its own (with one, which JSON cannot
    make callable, the conversion throws a [TypeError]); and for an array
    when this holds of its elements. *)
Fixpoint printable (v : jsval) : bool :=
  match v with
  | JNum n => (n <? 9007199254740992)%N
  | JArr items => forallb printable items
  | JObj fields =>
      negb (existsb (fun field => String.eqb (fst field) "toString") fields)
  | _ => true
  end.

(** ** Properties *)

Section Monad.

Context {A B : Type}.

Lemma run_bind (m : M A) (k : A -> M B) (w : world) :
  (m ≫= k) w =
  match m w with
  | (inl e, w1, t1) => (inl e, w1, t1)
  | (inr a, w1, t1) =>
      match k a w1 with
      | (r, w2, t2) => (r, w2, t1 ++ t2)
      end
  end.
Proof. reflexivity. Qed.

Lemma run_bind_value (m : M A) (k : A -> M B) (w w1 : world) a t1 :
  m w = (inr a, w1, t1) ->
  (m ≫= k) w = ((k a w1).1.1, (k a w1).1.2, t1 ++ (k a w1).2).
Proof.
  intros H. rewrite run_bind, H. now destruct (k a w1) as [[r w2] t2].
Qed.

Lemma run_bind_throw (m : M A) (k : A -> M B) (w w1 : world) e t1 :
  m w = (inl e, w1, t1) -> (m ≫= k) w = (inl e, w1, t1).
Proof. intros H. now rewrite run_bind, H. Qed.

End Monad.

(** One step of a sequence whose first computation evaluates to a value. *)
Ltac step := erewrite run_bind_value by reflexivity.

Lemma sameButSent_refl w : sameButSent w w.
Proof. now repeat split. Qed.

Lemma sameButSent_trans w1 w2 w3 :
  sameButSent w1 w2 -> sameButSent w2 w3 -> sameButSent w1 w3.
Proof.
  intros (a1 & b1 & c1 & d1) (a2 & b2 & c2 & d2).
  repeat split; congruence.
Qed.

Section Frames.

Context {A B : Type}.

Lemma framed_ret (a : A) : framed (mret a).
Proof. intros w. apply sameButSent_refl. Qed.

Lemma framed_throw (e : js_error) : framed (@throw A e).
Proof. intros w. apply sameButSent_refl. Qed.

Lemma framed_liftResult (r : result A) : framed (liftResult r).
Proof. intros w. apply sameButSent_refl. Qed.

Lemma framed_bind (m : M A) (k : A -> M B) :
  framed m -> (forall a, framed (k a)) -> framed (m ≫= k).
Proof.
  intros Hm Hk w. specialize (Hm w). unfold after in *.
  rewrite run_bind. destruct (m w) as [[[e|a] w1] t1]; cbn in *; [exact Hm|].
  specialize (Hk a w1). unfold after in Hk.
  destruct (k a w1) as [[r w2] t2]; cbn in *.
  eapply sameButSent_trans; eassumption.
Qed.

Lemma framed_tryCatch (m : M A) (h : js_error -> M A) :
  framed m -> (forall e, framed (h e)) -> framed (tryCatch m h).
Proof.
  intros Hm Hh w. specialize (Hm w). unfold after, tryCatch in *.
  destruct (m w) as [[[e|a] w1] t1]; cbn in *; [|exact Hm].
  specialize (Hh e w1). unfold after in Hh.
  destruct (h e w1) as [[r w2] t2]; cbn in *.
  eapply sameButSent_trans; eassumption.
Qed.

Lemma framed_tryFinally (m : M A) (c : M unit) :
  framed m -> framed c -> framed (tryFinally m c).
Proof.
  intros Hm Hc w. specialize (Hm w). unfold after, tryFinally in *.
  destruct (m w) as [[r w1] t1]; cbn in *.
  specialize (Hc w1). unfold after in Hc.
  destruct (c w1) as [[[e|[]] w2] t2]; cbn in *;
    eapply sameButSent_trans; eassumption.
Qed.

End Frames.

Lemma framed_emit e : framed (emit e).
Proof. intros w. apply sameButSent_refl. Qed.

Lemma framed_getWorld : framed getWorld.
Proof. intros w. apply sameButSent_refl. Qed.

Lemma framed_send r : framed (send r).
Proof. intros w. now repeat split. Qed.

Lemma framed_settle n : framed (settle n).
Proof. intros w. apply sameButSent_refl. Qed.

Create HintDb frame.
#[export] Hint Resolve framed_ret framed_throw framed_liftResult framed_emit
  framed_getWorld framed_send framed_settle : frame.
#[export] Hint Extern 2 (framed (_ ≫= _)) => apply framed_bind; [|intros ?] : frame.
#[export] Hint Extern 2 (framed (tryCatch _ _)) => apply framed_tryCatch; [|intros ?] : frame.
#[export] Hint Extern 2 (framed (tryFinally _ _)) => apply framed_tryFinally : frame.
#[export] Hint Extern 3 (framed (if ?b then _ else _)) => destruct b : frame.
#[export] Hint Extern 3 (framed (match ?x with inl _ => _ | inr _ => _ end)) => destruct x : frame.

Ltac frame := unfold showStatus, setLoading, loadDownloads, showWorkflowLink, fetch;
              auto 30 with frame.

Lemma framed_getLatestWorkflowRun data wt : framed (getLatestWorkflowRun data wt).
Proof. unfold getLatestWorkflowRun. frame. Qed.

Lemma framed_triggerWorkflow data : framed (triggerWorkflow data).
Proof.
  unfold triggerWorkflow.
  pose proof framed_getLatestWorkflowRun. frame.
Qed.

(** *** The URL classifier *)

Example getWorkflowType_watch :
  getWorkflowType "https://www.youtube.com/watch?v=abc" = "download-youtube".
Proof. reflexivity. Qed.

Example getWorkflowType_tiktok :
  getWorkflowType "tiktok.com/@user/video/1" = "download-tiktok".
Proof. reflexivity. Qed.

Example getWorkflowType_other :
  getWorkflowType "https://example.org/clip" = "download-video".
Proof. reflexivity. Qed.

Example isValidUrl_short_link : isValidUrl "youtu.be/x" = true.
Proof. reflexivity. Qed.

Example isValidUrl_needs_path : isValidUrl "https://www.tiktok.com/" = false.
Proof. reflexivity. Qed.

Example isValidUrl_upper_case : isValidUrl "https://WWW.YOUTUBE.COM/watch?v=1" = false.
Proof. reflexivity. Qed.

Lemma startsWith_spec s t :
  startsWith s t = true <-> exists rest, s = t +:+ rest.
Proof.
  unfold startsWith. revert s.
  induction t as [|c t IH]; intros s; cbn.
  - split; [intros _; now exists s | now destruct s].
  - destruct s as [|d s]; cbn.
    + split; [discriminate | intros [rest H]; discriminate].
    + destruct (Ascii.ascii_dec c d) as [->|Hcd].
      * rewrite IH. split; intros [rest H]; exists rest.
        -- now rewrite H.
        -- now injection H.
      * split; [discriminate | intros [rest H]].
        injection H as Hd _. now symmetry in Hd.
Qed.

Lemma includes_spec s t : includes s t = true <-> occursIn t s.
Proof.
  induction s as [|c s IH]; cbn [includes]; rewrite orb_true_iff.
  - split.
    + intros [H|H]; [|discriminate].
      apply startsWith_spec in H as [rest H]. now exists "", rest.
    + intros ([|d before] & rest & H); [|discriminate].
      left. apply startsWith_spec. now exists rest.
  - rewrite IH. split.
    + intros [H|(before & rest & H)].
      * apply startsWith_spec in H as [rest H]. now exists "", rest.
      * exists (String c before), rest. cbn. now rewrite H.
    + intros ([|d before] & rest & H).
      * left. apply startsWith_spec. now exists rest.
      * right. cbn in H. injection H as -> H. now exists before, rest.
Qed.

Lemma includes_false s t : includes s t = false <-> ~ occursIn t s.
Proof.
  rewrite <- includes_spec. destruct (includes s t); split; congruence.
Qed.

Lemma append_cons c (a b : string) : String c a +:+ b = String c (a +:+ b).
Proof. reflexivity. Qed.

Lemma append_assoc (a b c : string) : (a +:+ b) +:+ c = a +:+ b +:+ c.
Proof.
  induction a as [|x a IH]; [reflexivity | now rewrite !append_cons, IH].
Qed.

(** The classifier on a URL that carries a YouTube marker. *)
Lemma getWorkflowType_youtube url :
  occursIn "youtube.com" url \/ occursIn "youtu.be" url ->
  getWorkflowType url = "download-youtube".
Proof.
  intros H. unfold getWorkflowType.
  rewrite <- !includes_spec in H. apply orb_true_iff in H. now rewrite H.
Qed.

(** C3, as the code has it: the markers are searched as written (the test
    distinguishes upper and lower case), anywhere in the input, so any
    scheme or [www.] before them is accepted; a YouTube marker gives
    ['download-youtube'], a TikTok marker without a YouTube marker gives
    ['download-tiktok'], and every other input ['download-video'].  The
    classifier is a total function. *)
Theorem C3_classifier_case_sensitive (url : string) :
  (getWorkflowType url = "download-youtube"
     <-> (occursIn "youtube.com" url \/ occursIn "youtu.be" url))
  /\ (getWorkflowType url = "download-tiktok"
     <-> (occursIn "tiktok.com" url
          /\ ~ (occursIn "youtube.com" url \/ occursIn "youtu.be" url)))
  /\ (getWorkflowType url = "download-video"
     <-> ~ (occursIn "youtube.com" url \/ occursIn "youtu.be" url
            \/ occursIn "tiktok.com" url))
  /\ (forall scheme www rest,
        getWorkflowType (scheme +:+ www +:+ "youtube.com" +:+ rest)
          = "download-youtube"
        /\ getWorkflowType (scheme +:+ www +:+ "youtu.be" +:+ rest)
          = "download-youtube").
Proof.
  unfold getWorkflowType. rewrite <- !includes_spec.
  destruct (includes url "youtube.com") eqn:Ha;
    destruct (includes url "youtu.be") eqn:Hb;
    destruct (includes url "tiktok.com") eqn:Hc; cbn;
    (split; [|split; [|split]]);
    try (split; [intros H | intros H]; try discriminate;
         try reflexivity; intuition congruence).
  all: intros scheme www rest; split; apply getWorkflowType_youtube;
    [left | right]; exists (scheme +:+ www), rest;
    now rewrite append_assoc.
Qed.

(** C3 fails as stated: a host written in upper case carries the YouTube
    marker for a test that ignores case, and the classifier answers with the
    generic trigger; and an input with both markers is classified as
    YouTube. *)
Lemma C3_upper_case_host_is_generic :
  includes (toLowerCase "https://WWW.YOUTUBE.COM/watch?v=1") "youtube.com" = true
  /\ getWorkflowType "https://WWW.YOUTUBE.COM/watch?v=1" = "download-video"
  /\ includes "https://www.tiktok.com/@youtube.com/video/1" "tiktok.com" = true
  /\ getWorkflowType "https://www.tiktok.com/@youtube.com/video/1" = "download-youtube".
Proof. repeat split. Qed.

(** *** Frames of the dispatch and of the poller *)

Lemma framed_pollSend data run n : framed (pollSend data run n).
Proof. unfold pollSend, checkWorkflowStatusSend. frame. Qed.

Lemma framed_pollSettle p : framed (pollSettle p).
Proof. unfold pollSettle, checkWorkflowStatusSettle. frame. Qed.

Lemma framed_pollLoop fuel : forall p, framed (pollLoop fuel p).
Proof.
  induction fuel as [|fuel IH]; intros p; cbn [pollLoop]; [frame|].
  pose proof framed_pollSettle. pose proof framed_pollSend. frame.
Qed.

Lemma framed_pollWorkflowStatus data run : framed (pollWorkflowStatus data run).
Proof. unfold pollWorkflowStatus. pose proof framed_pollSend. frame. Qed.

Lemma framed_dispatchAndPoll data : framed (dispatchAndPoll data).
Proof.
  unfold dispatchAndPoll.
  pose proof framed_triggerWorkflow. pose proof framed_pollWorkflowStatus.
  frame.
Qed.

(** *** Validation and submission *)

Lemma str_falsy_empty s : str_falsy s = true <-> s = "".
Proof. destruct s; cbn; split; congruence. Qed.

(** What a passed validation means for the fields. *)
Lemma validateForm_passes data w :
  outcome (validateForm data) w = inr true ->
  validateForm data w = (inr true, w, [])
  /\ videoUrl data <> "" /\ githubToken data <> ""
  /\ repoOwner data <> "" /\ repoName data <> ""
  /\ isValidUrl (videoUrl data) = true.
Proof.
  unfold outcome, validateForm. rewrite <- !str_falsy_empty.
  destruct (str_falsy (videoUrl data)), (str_falsy (githubToken data)),
    (str_falsy (repoOwner data)), (str_falsy (repoName data));
    cbn; try discriminate.
  destruct (isValidUrl (videoUrl data)); cbn; [|discriminate].
  intros _. repeat split; congruence.
Qed.

Lemma handleSubmit_valid w :
  outcome (validateForm (form w)) w = inr true ->
  handleSubmit w =
    (outcome (dispatchAndPoll (form w)) (saved w),
     after (dispatchAndPoll (form w)) (saved w),
     submitPrefix (form w) ++ effects (dispatchAndPoll (form w)) (saved w)).
Proof.
  intros H. apply validateForm_passes in H as [H _].
  unfold handleSubmit.
  do 2 step. erewrite run_bind_value by exact H. cbn [negb].
  do 3 step.
  reflexivity.
Qed.

(** The effects of a sequence begin with those of its first part. *)
Lemma effects_bind_prefix {A B} (m : M A) (k : A -> M B) w :
  effects m w `prefix_of` effects (m ≫= k) w.
Proof.
  unfold effects. rewrite run_bind.
  destruct (m w) as [[[e|a] w1] t1]; cbn; [reflexivity|].
  destruct (k a w1) as [[r w2] t2]; cbn. now exists t2.
Qed.

Lemma effects_tryCatch_prefix {A} (m : M A) h w :
  effects m w `prefix_of` effects (tryCatch m h) w.
Proof.
  unfold effects, tryCatch.
  destruct (m w) as [[[e|a] w1] t1]; cbn; [|reflexivity].
  destruct (h e w1) as [[r w2] t2]; cbn. now exists t2.
Qed.

Lemma effects_tryFinally_prefix {A} (m : M A) c w :
  effects m w `prefix_of` effects (tryFinally m c) w.
Proof.
  unfold effects, tryFinally.
  destruct (m w) as [[r w1] t1]; cbn.
  destruct (c w1) as [[[e|[]] w2] t2]; cbn; now exists t2.
Qed.

Lemma triggerWorkflow_first data w :
  [Fetch (dispatchRequest data (clock w))] `prefix_of` effects (triggerWorkflow data) w.
Proof.
  unfold triggerWorkflow, effects. step. cbn [snd app].
  unfold fetch.
  etransitivity; [|apply effects_bind_prefix].
  etransitivity; [|apply effects_bind_prefix].
  reflexivity.
Qed.

Lemma dispatchAndPoll_first data w :
  [Fetch (dispatchRequest data (clock w))] `prefix_of` effects (dispatchAndPoll data) w.
Proof.
  unfold dispatchAndPoll.
  etransitivity; [|apply effects_tryFinally_prefix].
  etransitivity; [|apply effects_tryCatch_prefix].
  etransitivity; [|apply effects_bind_prefix].
  apply triggerWorkflow_first.
Qed.

Lemma submission_valid fuel w :
  outcome (validateForm (form w)) w = inr true ->
  sameButSent (saved w) (after (submission fuel) w)
  /\ (submitPrefix (form w) ++ [Fetch (dispatchRequest (form w) (clock w))])
       `prefix_of` effects (submission fuel) w.
Proof.
  intros H. unfold submission, after, effects.
  rewrite run_bind, (handleSubmit_valid w H).
  pose proof (framed_dispatchAndPoll (form w) (saved w)) as Hf.
  destruct (dispatchAndPoll_first (form w) (saved w)) as [rest Hr].
  unfold after, outcome in *. rewrite Hr. clear Hr.
  destruct (dispatchAndPoll (form w) (saved w)) as [[[e|[p|]] w1] t1]; cbn in *.
  - split; [exact Hf|]. now exists rest.
  - pose proof (framed_pollLoop fuel p w1) as Hp. unfold after in Hp.
    destruct (pollLoop fuel p w1) as [[r w2] t2]; cbn in *.
    split; [eapply sameButSent_trans; eassumption|].
    now exists (rest ++ t2).
  - split; [exact Hf|]. exists rest. now rewrite app_nil_r.
Qed.

(** *** Submission: validation and persistence *)

(** C6, as the code has it: when the video URL, the credential, the owner or
    the repo name is empty, the submission is blocked: the page shows the
    message about required fields, the state is left as it was, and no
    request is sent.  (The output mode is not among the fields tested.) *)
Theorem C6_empty_field_blocks_submission (w : world) (fuel : nat) :
  videoUrl (form w) = "" \/ githubToken (form w) = ""
  \/ repoOwner (form w) = "" \/ repoName (form w) = "" ->
  submission fuel w =
    (inr Stopped, w,
     [PreventDefault; ShowStatus "Please fill in all required fields" "error"])
  /\ List.filter isFetch (effects (submission fuel) w) = [].
Proof.
  intros H.
  assert (Hv : validateForm (form w) w =
               (inr false, w, [ShowStatus "Please fill in all required fields" "error"])).
  { unfold validateForm.
    rewrite <- !str_falsy_empty in H.
    destruct H as [H|[H|[H|H]]]; rewrite H; cbn;
      rewrite ?orb_true_r; reflexivity. }
  assert (Hs : submission fuel w =
    (inr Stopped, w,
     [PreventDefault; ShowStatus "Please fill in all required fields" "error"])).
  { unfold submission, handleSubmit.
    erewrite run_bind_value; cycle 1.
    { do 2 step. erewrite run_bind_value by exact Hv. reflexivity. }
    reflexivity. }
  split; [exact Hs|]. unfold effects. now rewrite Hs.
Qed.

Lemma C6_empty_field_blocks_submission_witness :
  videoUrl (form (sampleWorld (FormData "" "token" "video" "octo" "videos") offline)) = ""
  /\ List.filter isFetch
       (effects (submission 30)
          (sampleWorld (FormData "" "token" "video" "octo" "videos") offline)) = [].
Proof.
  split; [reflexivity|].
  apply (C6_empty_field_blocks_submission
           (sampleWorld (FormData "" "token" "video" "octo" "videos") offline) 30).
  left. reflexivity.
Defined.

(** C6 fails as stated for the output mode: with an empty output mode and
    the other fields filled in, validation passes and the dispatch request
    is sent. *)
Lemma C6_empty_output_mode_is_submitted :
  let w := sampleWorld (FormData "https://youtu.be/abc" "token" "" "octo" "videos")
             offline in
  downloadType (form w) = ""
  /\ outcome (validateForm (form w)) w = inr true
  /\ List.filter isFetch (effects (submission 30) w)
     = [Fetch (dispatchRequest (form w) (clock w))].
Proof. repeat split. Qed.

Lemma lookup_saved_owner w :
  localStorage (saved w) !! "repoOwner" = Some (repoOwner (form w)).
Proof.
  unfold saved. cbn.
  rewrite lookup_insert_ne by discriminate. apply lookup_insert_eq.
Qed.

Lemma lookup_saved_repo w :
  localStorage (saved w) !! "repoName" = Some (repoName (form w)).
Proof. unfold saved. cbn. apply lookup_insert_eq. Qed.

(** C10: on a submission that passes validation the two fields are written
    to local storage before the dispatch request, which is the first request
    sent; and whatever the network answers, so also when the dispatch fails,
    the storage holds the new values when the submission is over. *)
Theorem C10_storage_written_before_dispatch (w : world) (fuel : nat) :
  outcome (validateForm (form w)) w = inr true ->
  (exists rest,
      effects (submission fuel) w =
        [PreventDefault;
         SetItem "repoOwner" (repoOwner (form w));
         SetItem "repoName" (repoName (form w));
         SetLoading true;
         ShowStatus "Triggering download workflow..." "info";
         Fetch (dispatchRequest (form w) (clock w))] ++ rest)
  /\ localStorage (after (submission fuel) w)
     = <["repoName" := repoName (form w)]>
         (<["repoOwner" := repoOwner (form w)]> (localStorage w))
  /\ localStorage (after (submission fuel) w) !! "repoOwner"
     = Some (repoOwner (form w))
  /\ localStorage (after (submission fuel) w) !! "repoName"
     = Some (repoName (form w)).
Proof.
  intros H. destruct (submission_valid fuel w H) as [(Hs & _) Hp].
  split; [exact Hp|]. rewrite Hs.
  split; [reflexivity|]. split; [apply lookup_saved_owner | apply lookup_saved_repo].
Qed.

Lemma C10_storage_written_before_dispatch_witness :
  outcome (triggerWorkflow sampleForm) (sampleWorld sampleForm rejecting)
    = inl (Error "Bad request")
  /\ localStorage (after (submission 30) (sampleWorld sampleForm rejecting))
       !! "repoOwner" = Some "octo".
Proof.
  split; [reflexivity|].
  apply (C10_storage_written_before_dispatch (sampleWorld sampleForm rejecting) 30).
  reflexivity.
Defined.

Lemma after_saveRepoInfo owner repo w :
  localStorage (after (saveRepoInfo owner repo) w)
  = <["repoName" := repo]> (<["repoOwner" := owner]> (localStorage w)).
Proof. reflexivity. Qed.

(** What [loadSavedRepoInfo] does with the values a [saveRepoInfo] left. *)
Lemma load_after_save owner repo (w w' : world) :
  localStorage w' = localStorage (after (saveRepoInfo owner repo) w) ->
  outcome (getItem "repoOwner") w' = inr (Some owner)
  /\ outcome (getItem "repoName") w' = inr (Some repo)
  /\ (owner <> "" -> repo <> "" ->
      form (after init w') =
        FormData (videoUrl (form w')) (githubToken (form w'))
                 (downloadType (form w')) owner repo).
Proof.
  intros H.
  assert (Ho : localStorage w' !! "repoOwner" = Some owner).
  { rewrite H, after_saveRepoInfo.
    rewrite lookup_insert_ne by discriminate. apply lookup_insert_eq. }
  assert (Hr : localStorage w' !! "repoName" = Some repo).
  { rewrite H, after_saveRepoInfo. apply lookup_insert_eq. }
  unfold outcome, getItem. cbn. rewrite Ho, Hr. repeat split.
  intros Hno Hnr. unfold after, init, loadSavedRepoInfo.
  step. unfold getItem. do 2 step. cbn. rewrite Ho, Hr.
  destruct owner; [congruence|]. destruct repo; [congruence|].
  reflexivity.
Qed.

(** C8: the owner and the repo name a submission writes are what a later
    page load reads under the two keys and puts into the two inputs, the
    other inputs being left as the document has them. *)
Theorem C8_saved_repo_info_round_trip (w w' : world) (fuel : nat) :
  outcome (validateForm (form w)) w = inr true ->
  localStorage w' = localStorage (after (submission fuel) w) ->
  outcome (getItem "repoOwner") w' = inr (Some (repoOwner (form w)))
  /\ outcome (getItem "repoName") w' = inr (Some (repoName (form w)))
  /\ form (after init w') =
       FormData (videoUrl (form w')) (githubToken (form w'))
                (downloadType (form w'))
                (repoOwner (form w)) (repoName (form w)).
Proof.
  intros H Hw'.
  destruct (submission_valid fuel w H) as [(Hs & _) _].
  destruct (validateForm_passes _ _ H) as (_ & _ & _ & Ho & Hr & _).
  destruct (load_after_save (repoOwner (form w)) (repoName (form w)) w w')
    as (H1 & H2 & H3).
  { rewrite Hw', Hs. reflexivity. }
  auto.
Qed.

Lemma C8_saved_repo_info_round_trip_witness :
  form (after init
          (World (localStorage (after (submission 30) (sampleWorld sampleForm offline)))
                 (FormData "" "" "video" "" "") "2024-01-02T00:00:00.000Z" offline 0))
  = FormData "" "" "video" "octo" "videos".
Proof.
  apply (C8_saved_repo_info_round_trip (sampleWorld sampleForm offline)
           (World (localStorage (after (submission 30) (sampleWorld sampleForm offline)))
                  (FormData "" "" "video" "" "") "2024-01-02T00:00:00.000Z" offline 0)
           30); reflexivity.
Defined.

(** *** The dispatch client *)

Lemma fetch_answered req w r :
  network w (sent w) = inr r ->
  fetch req w = (inr r, setSent w (S (sent w)), [Fetch req]).
Proof.
  intros H. unfold fetch. step. unfold settle. cbn. now rewrite H.
Qed.

Lemma fetch_rejected req w e :
  network w (sent w) = inl e ->
  fetch req w = (inl e, setSent w (S (sent w)), [Fetch req]).
Proof.
  intros H. unfold fetch. step. unfold settle. cbn. now rewrite H.
Qed.

(** A dispatch that is answered outside 200-299 throws the message of the
    body when it has a truthy one, and the status line otherwise. *)
Lemma triggerWorkflow_refused data w r :
  network w (sent w) = inr r ->
  ok r = false ->
  forall serverMessage,
  getProp (match json r with inl _ => JObj [] | inr v => v end) "message"
    = inr serverMessage ->
  triggerWorkflow data w =
    (inl (Error (if truthy serverMessage then toString serverMessage
                 else "HTTP " +:+ ofN (status r) +:+ ": " +:+ statusText r)),
     setSent w (S (sent w)),
     [Fetch (dispatchRequest data (clock w))]).
Proof.
  intros Hn Hok m Hm. unfold triggerWorkflow. step.
  erewrite run_bind_value by (apply fetch_answered; exact Hn).
  rewrite Hok. cbn [negb].
  erewrite run_bind_throw; [reflexivity|].
  erewrite run_bind_value by (unfold liftResult; rewrite Hm; reflexivity).
  reflexivity.
Qed.

(** Whatever [triggerWorkflow] throws, [handleSubmit] shows its message
    after the prefix [Error: ] and enables the button again. *)
Lemma dispatchAndPoll_reports data w e :
  outcome (triggerWorkflow data) w = inl e ->
  dispatchAndPoll data w =
    (inr None, after (triggerWorkflow data) w,
     effects (triggerWorkflow data) w
       ++ [ShowStatus ("Error: " +:+ message e) "error"; SetLoading false]).
Proof.
  unfold outcome, after, effects, dispatchAndPoll, tryFinally, tryCatch.
  rewrite run_bind.
  destruct (triggerWorkflow data w) as [[[e'|a] w1] t1]; cbn; [|discriminate].
  intros [= ->]. step. cbn. now rewrite <- app_assoc.
Qed.

(** C5: a dispatch answered with HTTP 422 and the body [{message: 'Bad
    request'}] fails with an error whose message is exactly ['Bad request'],
    the message of the server; a dispatch answered with HTTP 500 and a body
    that does not parse fails with the message ['HTTP 500: '] followed by
    the status text, which contains [500].  [handleSubmit] reports either
    error in the status line, after the label ['Error: ']. *)
Theorem C5_dispatch_error_message (data : formData) (w : world) (r : response) :
  network w (sent w) = inr r ->
  (status r = 422%N ->
   json r = inr (JObj [("message", JStr "Bad request")]) ->
   outcome (triggerWorkflow data) w = inl (Error "Bad request")
   /\ shown (effects (dispatchAndPoll data) w)
      = [("Error: " +:+ "Bad request", "error")])
  /\ (status r = 500%N ->
      forall e, json r = inl e ->
      outcome (triggerWorkflow data) w
        = inl (Error ("HTTP 500: " +:+ statusText r))
      /\ includes ("HTTP 500: " +:+ statusText r) "500" = true
      /\ shown (effects (dispatchAndPoll data) w)
         = [("Error: " +:+ "HTTP 500: " +:+ statusText r, "error")]).
Proof.
  intros Hn. split.
  - intros Hs Hj.
    assert (Ht := triggerWorkflow_refused data w r Hn).
    unfold ok in Ht. rewrite Hs, Hj in Ht.
    specialize (Ht eq_refl _ eq_refl). cbn in Ht.
    assert (Ho : outcome (triggerWorkflow data) w = inl (Error "Bad request"))
      by (unfold outcome; now rewrite Ht).
    split; [exact Ho|].
    unfold effects at 1. rewrite (dispatchAndPoll_reports _ _ _ Ho).
    unfold effects. now rewrite Ht.
  - intros Hs e Hj.
    assert (Ht := triggerWorkflow_refused data w r Hn).
    unfold ok in Ht. rewrite Hs, Hj in Ht.
    specialize (Ht eq_refl _ eq_refl). cbn in Ht.
    assert (Ho : outcome (triggerWorkflow data) w
                 = inl (Error ("HTTP 500: " +:+ statusText r)))
      by (unfold outcome; now rewrite Ht).
    split; [exact Ho|]. split.
    + apply includes_spec. now exists "HTTP ", (": " +:+ statusText r).
    + unfold effects at 1. rewrite (dispatchAndPoll_reports _ _ _ Ho).
      unfold effects. now rewrite Ht.
Qed.

Lemma C5_dispatch_error_message_witness :
  (outcome (triggerWorkflow sampleForm) (sampleWorld sampleForm rejecting)
     = inl (Error "Bad request")
   /\ shown (effects (dispatchAndPoll sampleForm) (sampleWorld sampleForm rejecting))
      = [("Error: Bad request", "error")])
  /\ outcome (triggerWorkflow sampleForm) (sampleWorld sampleForm failing)
     = inl (Error "HTTP 500: Internal Server Error").
Proof.
  split.
  - apply (C5_dispatch_error_message sampleForm (sampleWorld sampleForm rejecting)
             (Response 422 "Unprocessable Entity"
                (inr (JObj [("message", JStr "Bad request")]))));
      reflexivity.
  - apply (C5_dispatch_error_message sampleForm (sampleWorld sampleForm failing)
             (Response 500 "Internal Server Error"
                (inl (Error "Unexpected token '<'")))
             eq_refl) with (e := Error "Unexpected token '<'");
      reflexivity.
Defined.

(** *** The run locator *)

(** The object [triggerWorkflow] resolves to always has [success: true]. *)
Lemma triggerWorkflow_success data w res :
  outcome (triggerWorkflow data) w = inr res -> success res = true.
Proof.
  unfold outcome, triggerWorkflow. step. cbn [fst snd].
  rewrite run_bind. destruct (fetch _ w) as [[[e|r] w1] t1]; cbn; [discriminate|].
  rewrite run_bind.
  match goal with
  | |- context [match ?m w1 with _ => _ end] =>
      destruct (m w1) as [[[e|[]] w2] t2]; cbn; [discriminate|]
  end.
  rewrite run_bind.
  destruct (getLatestWorkflowRun _ _ w2) as [[[e|v] w3] t3]; cbn; [discriminate|].
  now intros [= <-].
Qed.

Lemma dispatchAndPoll_locator_miss data w res :
  outcome (triggerWorkflow data) w = inr res ->
  truthy (runId res) = false ->
  dispatchAndPoll data w =
    (inr None, after (triggerWorkflow data) w,
     effects (triggerWorkflow data) w
       ++ [ShowStatus ("Workflow triggered successfully! Run ID: "
                         +:+ toString (runId res)) "success";
           ShowWorkflowLink
             ("https://github.com/" +:+ repoOwner data +:+ "/" +:+ repoName data
                +:+ "/actions/runs/" +:+ toString (runId res));
           SetLoading false]).
Proof.
  intros Ho Hr. pose proof (triggerWorkflow_success _ _ _ Ho) as Hs.
  revert Ho.
  unfold outcome, after, effects, dispatchAndPoll, tryFinally, tryCatch.
  rewrite run_bind.
  destruct (triggerWorkflow data w) as [[[e'|a] w1] t1]; cbn; [discriminate|].
  intros [= ->]. rewrite Hs. do 2 step.
  unfold pollWorkflowStatus. rewrite Hr. cbn. now rewrite <- app_assoc.
Qed.

(** C2, as the code has it: when the locator resolves no run identifier, the
    submission shows the message of a triggered workflow, with the missing
    identifier printed in it, as a success, and a link to the run page;
    polling is skipped (no tick is left pending, no status request is sent)
    and nothing is reported as an error. *)
Theorem C2_locator_miss_reported_as_success (w : world) (fuel : nat)
    (res : dispatchResult) :
  outcome (validateForm (form w)) w = inr true ->
  outcome (triggerWorkflow (form w)) (saved w) = inr res ->
  truthy (runId res) = false ->
  outcome handleSubmit w = inr None
  /\ poller fuel (form w) (runId res) (after handleSubmit w)
     = (inr Stopped, after handleSubmit w, [])
  /\ effects (submission fuel) w =
       submitPrefix (form w)
       ++ effects (triggerWorkflow (form w)) (saved w)
       ++ [ShowStatus ("Workflow triggered successfully! Run ID: "
                         +:+ toString (runId res)) "success";
           ShowWorkflowLink
             ("https://github.com/" +:+ repoOwner (form w) +:+ "/"
                +:+ repoName (form w) +:+ "/actions/runs/"
                +:+ toString (runId res));
           SetLoading false].
Proof.
  intros Hv Ho Hr.
  pose proof (handleSubmit_valid w Hv) as Hh.
  pose proof (dispatchAndPoll_locator_miss _ _ _ Ho Hr) as Hd.
  unfold outcome, after, effects in *. rewrite Hd in Hh. cbn in Hh.
  unfold submission. rewrite run_bind, Hh. cbn.
  repeat split.
  - unfold poller, pollWorkflowStatus. rewrite Hr. reflexivity.
  - now rewrite app_nil_r.
Qed.

Lemma C2_locator_miss_reported_as_success_witness :
  outcome handleSubmit (sampleWorld sampleForm noRuns) = inr None.
Proof.
  apply (C2_locator_miss_reported_as_success (sampleWorld sampleForm noRuns) 30
           (DispatchResult true JNull)); reflexivity.
Defined.

(** C2 fails as stated: the locator resolves no identifier, and what the
    page displays at the end is a success; no error is shown at all. *)
Lemma C2_locator_miss_is_not_an_error :
  let w := sampleWorld sampleForm noRuns in
  outcome (triggerWorkflow (form w)) (saved w) = inr (DispatchResult true JNull)
  /\ displayed (effects (submission 30) w)
     = Some ("Workflow triggered successfully! Run ID: null", "success")
  /\ List.filter (fun shownAs => String.eqb (snd shownAs) "error")
       (shown (effects (submission 30) w)) = [].
Proof. repeat split. Qed.

(** *** The status poller *)

(** [checkWorkflowStatus] after its request: no effect, no change of state. *)
Lemma checkWorkflowStatusSettle_pure n w :
  checkWorkflowStatusSettle n w = (outcome (checkWorkflowStatusSettle n) w, w, []).
Proof.
  unfold outcome, checkWorkflowStatusSettle, settle. rewrite run_bind.
  destruct (network w n) as [e|r]; cbn; [reflexivity|].
  unfold liftResult. now destruct (ok r).
Qed.

(** The run status the poller reads off an answer. *)
Lemma runStatus_read n w conclusion lifecycle :
  runStatus (network w n) = Some (conclusion, lifecycle) ->
  exists body,
    checkWorkflowStatusSettle n w = (inr body, w, [])
    /\ getProp body "conclusion" = inr conclusion
    /\ getProp body "status" = inr lifecycle.
Proof.
  unfold runStatus, checkWorkflowStatusSettle, settle. rewrite run_bind.
  destruct (network w n) as [e|r]; [discriminate|]. cbn.
  destruct (ok r); [|discriminate].
  unfold liftResult. destruct (json r) as [e|body]; [discriminate|].
  destruct (getProp body "conclusion") as [e|c] eqn:Hc; [discriminate|].
  destruct (getProp body "status") as [e|l] eqn:Hl; [discriminate|].
  intros [= <- <-]. now exists body.
Qed.

(** The tick, case by case. *)
Section Tick.

Variables (p : pending) (w : world).

Lemma pollSettle_throws e :
  outcome (checkWorkflowStatusSettle (ticket p)) w = inl e ->
  pollSettle p w =
    (inr false, w, [ConsoleError "Error polling workflow status:" e]).
Proof.
  intros H. unfold pollSettle, tryCatch.
  rewrite run_bind, checkWorkflowStatusSettle_pure, H. reflexivity.
Qed.

Lemma pollSettle_success :
  succeeded (network w (ticket p)) = true ->
  pollSettle p w =
    (inr false, w, [ShowStatus successText "success"; LoadDownloads]).
Proof.
  unfold succeeded.
  destruct (runStatus (network w (ticket p))) as [[c l]|] eqn:Hr; [|discriminate].
  intros Hc. destruct (runStatus_read _ _ _ _ Hr) as (body & Hb & Hbc & _).
  unfold pollSettle, tryCatch. rewrite run_bind, Hb.
  unfold liftResult. rewrite run_bind, Hbc, Hc. reflexivity.
Qed.

Lemma pollSettle_in_progress :
  inProgress (network w (ticket p)) = true ->
  (attempts p < maxAttempts)%N ->
  pollSettle p w =
    (inr true, w,
     [ShowStatus (progressText (attempts p)) "info"; SetTimeout 10000]).
Proof.
  unfold inProgress, concluded.
  destruct (runStatus (network w (ticket p))) as [[c l]|] eqn:Hr; [|discriminate].
  intros [[Hs Hf]%negb_true_iff%orb_false_iff Hl]%andb_true_iff Ha.
  apply N.ltb_lt in Ha.
  destruct (runStatus_read _ _ _ _ Hr) as (body & Hb & Hbc & Hbl).
  unfold pollSettle, tryCatch. rewrite run_bind, Hb.
  unfold liftResult. rewrite run_bind, Hbc, Hs, Hf.
  rewrite run_bind, Hbl, Hl, Ha. reflexivity.
Qed.

Lemma pollSettle_timeout :
  inProgress (network w (ticket p)) = true ->
  (maxAttempts <= attempts p)%N ->
  pollSettle p w = (inr false, w, [ShowStatus timeoutText "warning"]).
Proof.
  unfold inProgress, concluded.
  destruct (runStatus (network w (ticket p))) as [[c l]|] eqn:Hr; [|discriminate].
  intros [[Hs Hf]%negb_true_iff%orb_false_iff Hl]%andb_true_iff Ha.
  assert (Hlt : (attempts p <? maxAttempts)%N = false) by (apply N.ltb_ge; lia).
  apply N.leb_le in Ha.
  destruct (runStatus_read _ _ _ _ Hr) as (body & Hb & Hbc & Hbl).
  unfold pollSettle, tryCatch. rewrite run_bind, Hb.
  unfold liftResult. rewrite run_bind, Hbc, Hs, Hf.
  rewrite run_bind, Hbl, Hl, Hlt, Ha. reflexivity.
Qed.

Lemma pollSettle_stalled :
  stalled (network w (ticket p)) = true ->
  (attempts p < maxAttempts)%N ->
  pollSettle p w = (inr false, w, []).
Proof.
  unfold stalled, concluded.
  destruct (runStatus (network w (ticket p))) as [[c l]|] eqn:Hr; [|discriminate].
  intros [[Hs Hf]%negb_true_iff%orb_false_iff Hl%negb_true_iff]%andb_true_iff Ha.
  assert (Hge : (maxAttempts <=? attempts p)%N = false) by (apply N.leb_gt; lia).
  destruct (runStatus_read _ _ _ _ Hr) as (body & Hb & Hbc & Hbl).
  unfold pollSettle, tryCatch. rewrite run_bind, Hb.
  unfold liftResult. rewrite run_bind, Hbc, Hs, Hf.
  rewrite run_bind, Hbl, Hl, Hge. reflexivity.
Qed.

End Tick.

Lemma pollSend_run data run n w :
  pollSend data run n w =
    (inr (Pending data run (N.succ n) (sent w)), setSent w (S (sent w)),
     [Fetch (statusRequest data run)]).
Proof. reflexivity. Qed.

Lemma pollLoop_stops fuel p w t :
  pollSettle p w = (inr false, w, t) ->
  pollLoop (S fuel) p w = (inr Stopped, w, t).
Proof.
  intros H. cbn [pollLoop]. rewrite run_bind, H. cbn. now rewrite app_nil_r.
Qed.

Lemma progressRounds_S data run first k :
  progressRounds data run first (S k) =
    [ShowStatus (progressText first) "info"; SetTimeout 10000;
     Fetch (statusRequest data run)]
    ++ progressRounds data run (N.succ first) k.
Proof.
  unfold progressRounds.
  rewrite <- cons_seq, <- seq_shift. cbn [flat_map]. rewrite N.add_0_r.
  f_equal. rewrite flat_map_concat_map, map_map, <- flat_map_concat_map.
  apply flat_map_ext. intros i.
  now replace (N.succ first + N.of_nat i)%N with (first + N.of_nat (S i))%N by lia.
Qed.

(** [k] ticks in a row find the run in progress: each shows its progress
    line, sets the timer and sends the next request, and the loop goes on
    from the tick that is pending then. *)
Lemma pollLoop_progress k : forall fuel p w,
  sent w = S (ticket p) ->
  (forall i, i < k -> inProgress (network w (ticket p + i)) = true) ->
  (attempts p + N.of_nat k <= maxAttempts)%N ->
  let p' := Pending (pendingData p) (pendingRun p)
              (attempts p + N.of_nat k) (ticket p + k) in
  let w' := setSent w (sent w + k) in
  pollLoop (k + fuel) p w =
    (outcome (pollLoop fuel p') w', after (pollLoop fuel p') w',
     progressRounds (pendingData p) (pendingRun p) (attempts p) k
       ++ effects (pollLoop fuel p') w').
Proof.
  induction k as [|k IH]; intros fuel p w Hsent Hin Hle p' w'.
  - subst p' w'. cbn [Nat.add N.of_nat progressRounds seq flat_map app].
    rewrite N.add_0_r, !Nat.add_0_r.
    destruct p as [d r a t], w as [s f c n x]; cbn.
    unfold outcome, after, effects. now destruct (pollLoop fuel _ _) as [[? ?] ?].
  - cbn [Nat.add pollLoop].
    erewrite run_bind_value; cycle 1.
    { apply pollSettle_in_progress; [|lia].
      rewrite <- (Nat.add_0_r (ticket p)). apply Hin. lia. }
    cbn iota.
    rewrite run_bind, pollSend_run.
    rewrite IH; cbn [ticket attempts pendingData pendingRun].
    + subst p' w'. rewrite progressRounds_S.
      replace (N.succ (attempts p) + N.of_nat k)%N
        with (attempts p + N.of_nat (S k))%N by lia.
      unfold setSent; cbn [localStorage form clock network sent].
      replace (sent w + k) with (ticket p + S k) by lia.
      replace (S (sent w) + k) with (sent w + S k) by lia.
      unfold outcome, after, effects. cbn [fst snd app].
      reflexivity.
    + reflexivity.
    + intros i Hi. rewrite Hsent.
      replace (S (ticket p) + i) with (ticket p + S i) by lia.
      apply Hin. lia.
    + lia.
Qed.

(** [pollWorkflowStatus] with a run identifier: the first request leaves and
    the loop goes on from attempt 1. *)
Lemma poller_run fuel data run w :
  truthy run = true ->
  let p := Pending data run 1 (sent w) in
  let w1 := setSent w (S (sent w)) in
  poller fuel data run w =
    (outcome (pollLoop fuel p) w1, after (pollLoop fuel p) w1,
     Fetch (statusRequest data run) :: effects (pollLoop fuel p) w1).
Proof.
  intros H p w1. unfold poller, pollWorkflowStatus. rewrite H. cbn [negb].
  erewrite run_bind_value; cycle 1.
  { rewrite run_bind, pollSend_run. reflexivity. }
  reflexivity.
Qed.

(** [k] ticks in progress, seen from [pollWorkflowStatus]. *)
Lemma poller_progress k fuel data run w :
  truthy run = true ->
  (forall i, i < k -> inProgress (network w (sent w + i)) = true) ->
  (N.of_nat k < maxAttempts)%N ->
  let p' := Pending data run (1 + N.of_nat k) (sent w + k) in
  let w' := setSent w (S (sent w + k)) in
  poller (k + fuel) data run w =
    (outcome (pollLoop fuel p') w', after (pollLoop fuel p') w',
     Fetch (statusRequest data run)
       :: progressRounds data run 1 k ++ effects (pollLoop fuel p') w').
Proof.
  intros Hr Hin Hk p' w'. rewrite (poller_run _ _ _ _ Hr).
  unfold outcome at 1, after at 1, effects at 1.
  rewrite pollLoop_progress; cbn [ticket attempts pendingData pendingRun sent setSent].
  - reflexivity.
  - reflexivity.
  - exact Hin.
  - lia.
Qed.

(** C4: when every tick finds the run in progress, the poller makes exactly
    30 ticks: 30 status requests leave, the first 29 ticks show their
    progress line and set the timer, the 30th shows the timeout warning and
    sets none, and the loop is over.  The run identifier is one the page
    can print into the address of the request: a safe integer, as the API
    gives, or another [printable] value. *)
Theorem C4_in_progress_run_times_out (data : formData) (run : jsval)
    (w : world) (fuel : nat) :
  truthy run = true ->
  printable run = true ->
  (forall i, i < 30 -> inProgress (network w (sent w + i)) = true) ->
  30 <= fuel ->
  poller fuel data run w =
    (inr Stopped, setSent w (sent w + 30),
     Fetch (statusRequest data run)
       :: progressRounds data run 1 29 ++ [ShowStatus timeoutText "warning"])
  /\ length (List.filter isFetch (effects (poller fuel data run) w))
     = N.to_nat maxAttempts
  /\ length (List.filter isTimer (effects (poller fuel data run) w)) = 29
  /\ displayed (effects (poller fuel data run) w) = Some (timeoutText, "warning").
Proof.
  intros Hr _ Hin Hfuel.
  assert (Hp : poller fuel data run w =
    (inr Stopped, setSent w (sent w + 30),
     Fetch (statusRequest data run)
       :: progressRounds data run 1 29 ++ [ShowStatus timeoutText "warning"])).
  { replace fuel with (29 + S (fuel - 30)) by lia.
    rewrite poller_progress; [|exact Hr|intros i Hi; apply Hin; lia|reflexivity].
    unfold outcome, after, effects.
    erewrite pollLoop_stops; cycle 1.
    { apply pollSettle_timeout; [|reflexivity].
      cbn [ticket network setSent]. apply Hin. lia. }
    cbn [fst snd setSent localStorage form clock network].
    now replace (S (sent w + 29)) with (sent w + 30) by lia. }
  split; [exact Hp|]. unfold effects. rewrite Hp. cbn [snd].
  repeat split.
Qed.

Lemma C4_in_progress_run_times_out_witness :
  length (List.filter isFetch
            (effects (poller 30 sampleForm (JNum 7))
               (sampleWorld sampleForm alwaysInProgress))) = 30.
Proof.
  apply (C4_in_progress_run_times_out sampleForm (JNum 7)
           (sampleWorld sampleForm alwaysInProgress) 30).
  - reflexivity.
  - reflexivity.
  - intros i _. reflexivity.
  - lia.
Defined.

(** C7: for the status sequence in progress, in progress, success, the
    poller shows the progress line twice, with the attempt counts 1 and 2,
    then the success message, refreshes the downloads listing and stops.
    The run identifier is one the page can print into the address of the
    request: a safe integer, as the API gives, or another [printable]
    value. *)
Theorem C7_two_progress_then_success (data : formData) (run : jsval)
    (w : world) (fuel : nat) :
  truthy run = true ->
  printable run = true ->
  inProgress (network w (sent w)) = true ->
  inProgress (network w (sent w + 1)) = true ->
  succeeded (network w (sent w + 2)) = true ->
  3 <= fuel ->
  poller fuel data run w =
    (inr Stopped, setSent w (sent w + 3),
     [Fetch (statusRequest data run);
      ShowStatus "Download in progress... (1/30)" "info"; SetTimeout 10000;
      Fetch (statusRequest data run);
      ShowStatus "Download in progress... (2/30)" "info"; SetTimeout 10000;
      Fetch (statusRequest data run);
      ShowStatus "Download completed successfully!" "success";
      LoadDownloads]).
Proof.
  intros Hr _ H0 H1 H2 Hfuel.
  replace fuel with (2 + S (fuel - 3)) by lia.
  rewrite poller_progress; [|exact Hr| |reflexivity].
  - unfold outcome, after, effects.
    erewrite pollLoop_stops; cycle 1.
    { apply pollSettle_success. exact H2. }
    cbn [fst snd setSent localStorage form clock network].
    now replace (S (sent w + 2)) with (sent w + 3) by lia.
  - intros [|[|i]] Hi; [now rewrite Nat.add_0_r | exact H1 | lia].
Qed.

Lemma C7_two_progress_then_success_witness :
  poller 30 sampleForm (JNum 7) (sampleWorld sampleForm succeedsAtThird) =
    (inr Stopped, setSent (sampleWorld sampleForm succeedsAtThird) 3,
     [Fetch (statusRequest sampleForm (JNum 7));
      ShowStatus "Download in progress... (1/30)" "info"; SetTimeout 10000;
      Fetch (statusRequest sampleForm (JNum 7));
      ShowStatus "Download in progress... (2/30)" "info"; SetTimeout 10000;
      Fetch (statusRequest sampleForm (JNum 7));
      ShowStatus "Download completed successfully!" "success";
      LoadDownloads]).
Proof.
  apply (C7_two_progress_then_success sampleForm (JNum 7)
           (sampleWorld sampleForm succeedsAtThird) 30);
    [reflexivity..|lia].
Defined.

Lemma progressRounds_not_terminal data run first k :
  existsb isTerminalReport (progressRounds data run first k) = false.
Proof.
  revert first. induction k as [|k IH]; intros first; [reflexivity|].
  rewrite progressRounds_S, existsb_app, IH. reflexivity.
Qed.

Example stalled_queued : stalled (runAnswer "queued" JNull) = true.
Proof. reflexivity. Qed.

Example stalled_cancelled :
  stalled (runAnswer "completed" (JStr "cancelled")) = true.
Proof. reflexivity. Qed.

(** A tick that finds the run neither concluded by success or failure nor in
    progress, before the budget is used up, ends the loop without any
    effect. *)
Lemma pollLoop_stalled fuel p w :
  stalled (network w (ticket p)) = true ->
  (attempts p < maxAttempts)%N ->
  pollLoop (S fuel) p w = (inr Stopped, w, []).
Proof.
  intros Hs Ha. apply pollLoop_stops. now apply pollSettle_stalled.
Qed.

(** C9: a tick whose attempt count is below the budget and that finds the
    run neither concluded by success or failure nor in progress shows
    nothing and sets no timer.  The loop got there through [k] ticks in
    progress, so all the poller ever did is to send [k + 1] requests and to
    show [k] progress lines: no success, failure or timeout message is among
    its effects.  The run identifier is one the page can print into the
    address of the request: a safe integer, as the API gives, or another
    [printable] value. *)
Theorem C9_stalled_run_stops_silently (data : formData) (run : jsval)
    (w : world) (k fuel : nat) :
  truthy run = true ->
  printable run = true ->
  (forall i, i < k -> inProgress (network w (sent w + i)) = true) ->
  stalled (network w (sent w + k)) = true ->
  (N.of_nat (S k) < maxAttempts)%N ->
  k < fuel ->
  poller fuel data run w =
    (inr Stopped, setSent w (sent w + S k),
     Fetch (statusRequest data run) :: progressRounds data run 1 k)
  /\ length (List.filter isTimer (effects (poller fuel data run) w)) = k
  /\ existsb isTerminalReport (effects (poller fuel data run) w) = false.
Proof.
  intros Hr _ Hin Hst Hk Hfuel.
  assert (Hp : poller fuel data run w =
    (inr Stopped, setSent w (sent w + S k),
     Fetch (statusRequest data run) :: progressRounds data run 1 k)).
  { replace fuel with (k + S (fuel - S k)) by lia.
    rewrite poller_progress; [|exact Hr|exact Hin|lia].
    unfold outcome, after, effects.
    rewrite pollLoop_stalled; cbn [ticket attempts network setSent]; [|exact Hst|lia].
    cbn [fst snd setSent localStorage form clock network].
    rewrite app_nil_r. now replace (S (sent w + k)) with (sent w + S k) by lia. }
  split; [exact Hp|]. unfold effects. rewrite Hp. cbn [snd]. split.
  - cbn [List.filter isTimer]. clear. generalize 1%N as first.
    induction k as [|k IH]; intros first; [reflexivity|].
    rewrite progressRounds_S. cbn. now rewrite IH.
  - cbn [existsb isTerminalReport orb]. apply progressRounds_not_terminal.
Qed.

Lemma C9_stalled_run_stops_silently_witness :
  existsb isTerminalReport
    (effects (poller 30 sampleForm (JNum 7)) (sampleWorld sampleForm queuedAtThird))
  = false.
Proof.
  apply (C9_stalled_run_stops_silently sampleForm (JNum 7)
           (sampleWorld sampleForm queuedAtThird) 2 30).
  - reflexivity.
  - reflexivity.
  - intros [|[|i]] Hi; [reflexivity | reflexivity | lia].
  - reflexivity.
  - reflexivity.
  - lia.
Defined.

(** C1, as the code has it: a tick whose status fetch throws (the network
    fails, the answer is outside 200-299, or its body does not parse) logs
    the error on the console; it shows nothing and sets no timer, so the
    loop is over at that tick. *)
Theorem C1_failed_fetch_ends_polling (p : pending) (w : world) (fuel : nat)
    (e : js_error) :
  outcome (checkWorkflowStatusSettle (ticket p)) w = inl e ->
  pollSettle p w =
    (inr false, w, [ConsoleError "Error polling workflow status:" e])
  /\ pollLoop (S fuel) p w =
    (inr Stopped, w, [ConsoleError "Error polling workflow status:" e]).
Proof.
  intros H. pose proof (pollSettle_throws p w e H) as Hs.
  split; [exact Hs|]. now apply pollLoop_stops.
Qed.

Lemma C1_failed_fetch_ends_polling_witness :
  pollLoop 30 (Pending sampleForm (JNum 7) 1 0)
    (setSent (sampleWorld sampleForm failsOnce) 1)
  = (inr Stopped, setSent (sampleWorld sampleForm failsOnce) 1,
     [ConsoleError "Error polling workflow status:" (Error "Failed to fetch")]).
Proof.
  apply (C1_failed_fetch_ends_polling (Pending sampleForm (JNum 7) 1 0)
           (setSent (sampleWorld sampleForm failsOnce) 1) 29
           (Error "Failed to fetch")).
  reflexivity.
Defined.

(** C1 fails as stated: the first status fetch fails, one attempt out of 30
    is used and no conclusion was seen, and the poller stops there: it sends
    no second request and sets no timer, although the next answer would have
    been a success. *)
Lemma C1_single_failed_fetch_ends_loop :
  let w := sampleWorld sampleForm failsOnce in
  succeeded (network w 1) = true
  /\ poller 30 sampleForm (JNum 7) w =
     (inr Stopped, setSent w 1,
      [Fetch (statusRequest sampleForm (JNum 7));
       ConsoleError "Error polling workflow status:" (Error "Failed to fetch")]).
Proof. repeat split. Qed.

(** *** Termination of the poll loop *)

(** A tick never throws and leaves the state alone; it sets the timer only
    below the attempt budget. *)
Lemma pollSettle_total p w :
  exists again t,
    pollSettle p w = (inr again, w, t)
    /\ (again = true -> (attempts p < maxAttempts)%N).
Proof.
  unfold pollSettle, tryCatch.
  rewrite run_bind, checkWorkflowStatusSettle_pure.
  destruct (outcome (checkWorkflowStatusSettle (ticket p)) w) as [e|body];
    [now eexists _, _|].
  unfold liftResult. rewrite run_bind.
  destruct (getProp body "conclusion") as [e|c]; [now eexists _, _|].
  destruct (strictEqStr c "success"); [now eexists _, _|].
  destruct (strictEqStr c "failure"); [now eexists _, _|].
  rewrite run_bind.
  destruct (getProp body "status") as [e|l]; [now eexists _, _|].
  destruct (strictEqStr l "in_progress"); cbn [andb].
  - destruct (attempts p <? maxAttempts)%N eqn:Ha.
    + eexists _, _. split; [reflexivity|]. intros _. now apply N.ltb_lt.
    + destruct (maxAttempts <=? attempts p)%N; now eexists _, _.
  - destruct (maxAttempts <=? attempts p)%N; now eexists _, _.
Qed.

(** Unrolling the loop as many times as the budget leaves attempts is
    enough: it stops, for every behaviour of the network. *)
Lemma pollLoop_terminates fuel : forall p w,
  0 < fuel ->
  (maxAttempts < attempts p + N.of_nat fuel)%N ->
  outcome (pollLoop fuel p) w = inr Stopped.
Proof.
  induction fuel as [|fuel IH]; intros p w Hpos Hf; [lia|].
  unfold outcome. cbn [pollLoop]. rewrite run_bind.
  destruct (pollSettle_total p w) as (again & t & Hs & Hlt).
  rewrite Hs. destruct again; [|reflexivity].
  rewrite run_bind, pollSend_run.
  specialize (Hlt eq_refl). unfold maxAttempts in *.
  specialize (IH (Pending (pendingData p) (pendingRun p) (N.succ (attempts p))
                    (sent w)) (setSent w (S (sent w)))).
  unfold outcome in IH. cbn [attempts] in IH.
  destruct (pollLoop fuel _ _) as [[r w2] t2]. cbn in *.
  apply IH; lia.
Qed.

(** The poller stops within its budget of 30 ticks, whatever the run
    identifier and whatever the network answers. *)
Lemma poller_terminates data run w :
  outcome (poller (N.to_nat maxAttempts) data run) w = inr Stopped.
Proof.
  destruct (truthy run) eqn:Hr.
  - unfold outcome at 1. rewrite (poller_run _ _ _ _ Hr). cbn [fst].
    apply pollLoop_terminates; unfold maxAttempts; cbn [attempts]; lia.
  - unfold outcome, poller, pollWorkflowStatus. rewrite Hr. reflexivity.
Qed.


(** ** Further properties of the code *)

(** *** Effects of a computation, part by part *)

Section Always.

Context {A B : Type} (P : event -> Prop).

Lemma always_ret (a : A) : always P (mret a).
Proof. intros w. constructor. Qed.

Lemma always_throw (e : js_error) : always P (@throw A e).
Proof. intros w. constructor. Qed.

Lemma always_liftResult (r : result A) : always P (liftResult r).
Proof. intros w. constructor. Qed.

Lemma always_bind (m : M A) (k : A -> M B) :
  always P m -> (forall a, always P (k a)) -> always P (m ≫= k).
Proof.
  intros Hm Hk w. specialize (Hm w). unfold effects in *. rewrite run_bind.
  destruct (m w) as [[[e|a] w1] t1]; cbn in *; [exact Hm|].
  specialize (Hk a w1). unfold effects in Hk.
  destruct (k a w1) as [[r w2] t2]; cbn in *.
  apply Forall_app. now split.
Qed.

Lemma always_tryCatch (m : M A) (h : js_error -> M A) :
  always P m -> (forall e, always P (h e)) -> always P (tryCatch m h).
Proof.
  intros Hm Hh w. specialize (Hm w). unfold effects, tryCatch in *.
  destruct (m w) as [[[e|a] w1] t1]; cbn in *; [|exact Hm].
  specialize (Hh e w1). unfold effects in Hh.
  destruct (h e w1) as [[r w2] t2]; cbn in *.
  apply Forall_app. now split.
Qed.

Lemma always_tryFinally (m : M A) (c : M unit) :
  always P m -> always P c -> always P (tryFinally m c).
Proof.
  intros Hm Hc w. specialize (Hm w). unfold effects, tryFinally in *.
  destruct (m w) as [[r w1] t1]; cbn in *.
  specialize (Hc w1). unfold effects in Hc.
  destruct (c w1) as [[[e|[]] w2] t2]; cbn in *; apply Forall_app; now split.
Qed.

(** What follows the first part of a sequence. *)
Lemma bind_tail (m : M A) (k : A -> M B) w :
  (forall a, always P (k a)) ->
  exists t, effects (m ≫= k) w = effects m w ++ t /\ Forall P t.
Proof.
  intros Hk. unfold effects. rewrite run_bind.
  destruct (m w) as [[[e|a] w1] t1]; cbn.
  - exists []. split; [now rewrite app_nil_r | constructor].
  - specialize (Hk a w1). unfold effects in Hk.
    destruct (k a w1) as [[r w2] t2]; cbn in *. now exists t2.
Qed.

Lemma tryCatch_tail (m : M A) (h : js_error -> M A) w :
  (forall e, always P (h e)) ->
  exists t, effects (tryCatch m h) w = effects m w ++ t /\ Forall P t.
Proof.
  intros Hh. unfold effects, tryCatch.
  destruct (m w) as [[[e|a] w1] t1]; cbn.
  - specialize (Hh e w1). unfold effects in Hh.
    destruct (h e w1) as [[r w2] t2]; cbn in *. now exists t2.
  - exists []. split; [now rewrite app_nil_r | constructor].
Qed.

Lemma tryFinally_tail (m : M A) (c : M unit) w :
  always P c ->
  exists t, effects (tryFinally m c) w = effects m w ++ t /\ Forall P t.
Proof.
  intros Hc. unfold effects, tryFinally.
  destruct (m w) as [[r w1] t1]; cbn.
  specialize (Hc w1). unfold effects in Hc.
  destruct (c w1) as [[[e|[]] w2] t2]; cbn in *; now exists t2.
Qed.

End Always.

Lemma always_emit P e : P e -> always P (emit e).
Proof. intros H w. now repeat constructor. Qed.

Lemma always_send P r : P (Fetch r) -> always P (send r).
Proof. intros H w. now repeat constructor. Qed.

Lemma always_settle P n : always P (settle n).
Proof. intros w. constructor. Qed.

Lemma always_getWorld P : always P getWorld.
Proof. intros w. constructor. Qed.

Lemma always_fetch P r : P (Fetch r) -> always P (fetch r).
Proof.
  intros H. apply always_bind; [now apply always_send | intros; apply always_settle].
Qed.

Lemma effects_fetch r w : effects (fetch r) w = [Fetch r].
Proof.
  unfold effects, fetch. rewrite run_bind. cbn.
  now destruct (settle (sent w) (setSent w (S (sent w)))) as [[? ?] ?] eqn:E;
    unfold settle in E; injection E as <- <- <-.
Qed.

(** Walks through a computation made of sequences, branches and handlers,
    leaving what each effect has to satisfy. *)
Ltac walk :=
  repeat first
    [ solve [auto 1]
    | apply always_ret | apply always_throw | apply always_liftResult
    | apply always_getWorld | apply always_settle
    | apply always_fetch | apply always_send | apply always_emit
    | apply always_tryFinally
    | apply always_tryCatch; [|intros ?]
    | apply always_bind; [|intros ?]
    | match goal with
      | |- always _ (if ?b then _ else _) => destruct b
      | |- always _ (match ?x with inl _ => _ | inr _ => _ end) => destruct x
      | |- always _ (match ?x with Some _ => _ | None => _ end) => destruct x
      end ].

(** *** One dispatch per submission *)

Lemma filter_none {X} (f : X -> bool) (l : list X) :
  Forall (fun x => f x = false) l -> List.filter f l = [].
Proof.
  induction 1 as [|x l Hx _ IH]; [reflexivity|]. cbn. now rewrite Hx.
Qed.

Lemma getLatestWorkflowRun_no_dispatch data wt :
  always (fun e => isDispatch e = false) (getLatestWorkflowRun data wt).
Proof. unfold getLatestWorkflowRun. walk; reflexivity. Qed.

Lemma pollSend_no_dispatch data run n :
  always (fun e => isDispatch e = false) (pollSend data run n).
Proof. unfold pollSend, checkWorkflowStatusSend. walk; reflexivity. Qed.

Lemma pollSettle_no_dispatch p :
  always (fun e => isDispatch e = false) (pollSettle p).
Proof.
  unfold pollSettle, checkWorkflowStatusSettle, showStatus, loadDownloads.
  walk; reflexivity.
Qed.

Lemma pollLoop_no_dispatch fuel : forall p,
  always (fun e => isDispatch e = false) (pollLoop fuel p).
Proof.
  induction fuel as [|fuel IH]; intros p; cbn [pollLoop]; [walk|].
  pose proof pollSettle_no_dispatch. pose proof pollSend_no_dispatch.
  apply always_bind; [auto|]. intros [|]; [|walk].
  apply always_bind; auto.
Qed.

Lemma pollWorkflowStatus_no_dispatch data run :
  always (fun e => isDispatch e = false) (pollWorkflowStatus data run).
Proof.
  unfold pollWorkflowStatus. walk; reflexivity.
Qed.

(** After the dispatch request, [triggerWorkflow] makes no second one. *)
Lemma triggerWorkflow_tail data w :
  exists t,
    effects (triggerWorkflow data) w = Fetch (dispatchRequest data (clock w)) :: t
    /\ Forall (fun e => isDispatch e = false) t.
Proof.
  unfold triggerWorkflow, effects at 1. step. cbn [snd app].
  match goal with
  | |- context [((fetch ?r ≫= ?k) ?w1).2] =>
      destruct (bind_tail (fun e => isDispatch e = false) (fetch r) k w1)
        as (t & Ht & HP)
  end.
  - intros response. pose proof getLatestWorkflowRun_no_dispatch.
    apply always_bind; [|intros ?; apply always_bind; [auto|intros; walk]].
    destruct (negb (ok response)); walk.
  - exists t. split; [|exact HP].
    unfold effects in Ht at 1. rewrite Ht, effects_fetch. reflexivity.
Qed.

Lemma dispatchAndPoll_tail data w :
  exists t,
    effects (dispatchAndPoll data) w = Fetch (dispatchRequest data (clock w)) :: t
    /\ Forall (fun e => isDispatch e = false) t.
Proof.
  unfold dispatchAndPoll.
  match goal with
  | |- context [effects (tryFinally ?m ?c) w] =>
      destruct (tryFinally_tail (fun e => isDispatch e = false) m c w)
        as (t1 & E1 & H1); [unfold setLoading; walk; reflexivity|];
      rewrite E1; clear E1
  end.
  match goal with
  | |- context [effects (tryCatch ?m ?h) w] =>
      destruct (tryCatch_tail (fun e => isDispatch e = false) m h w)
        as (t2 & E2 & H2); [intros e; unfold showStatus; walk; reflexivity|];
      rewrite E2; clear E2
  end.
  match goal with
  | |- context [effects (?m ≫= ?k) w] =>
      destruct (bind_tail (fun e => isDispatch e = false) m k w)
        as (t3 & E3 & H3); [|rewrite E3; clear E3]
  end.
  { intros res. pose proof pollWorkflowStatus_no_dispatch.
    unfold showStatus, showWorkflowLink.
    destruct (success res); [|walk].
    apply always_bind; [walk; reflexivity|intros ?].
    apply always_bind; [walk; reflexivity|intros ?]. auto. }
  destruct (triggerWorkflow_tail data w) as (t4 & E4 & H4). rewrite E4.
  exists (((t4 ++ t3) ++ t2) ++ t1). split.
  - now rewrite <- !app_assoc.
  - now rewrite !Forall_app.
Qed.

(** A submission dispatches exactly once when the form is valid and not at
    all otherwise, whatever the network answers and however long the poll
    loop runs. *)
Theorem submission_dispatches_once (w : world) (fuel : nat) :
  List.filter isDispatch (effects (submission fuel) w) =
    match outcome (validateForm (form w)) w with
    | inr true => [Fetch (dispatchRequest (form w) (clock w))]
    | _ => []
    end.
Proof.
  destruct (outcome (validateForm (form w)) w) as [e|[|]] eqn:Hv.
  - exfalso. revert Hv. unfold outcome, validateForm.
    repeat match goal with |- context [if ?b then _ else _] => destruct b end;
      discriminate.
  - unfold submission.
    match goal with
    | |- context [effects (handleSubmit ≫= ?k) w] =>
        destruct (bind_tail (fun e => isDispatch e = false) handleSubmit k w)
          as (t & E & Ht);
          [intros [p|]; [apply pollLoop_no_dispatch | walk]|];
        rewrite E; clear E
    end.
    unfold effects at 1. rewrite (handleSubmit_valid w Hv). cbn [snd].
    destruct (dispatchAndPoll_tail (form w) (saved w)) as (t' & E' & Ht').
    rewrite E'. rewrite !List.filter_app. cbn.
    now rewrite (filter_none _ _ Ht), (filter_none _ _ Ht').
  - assert (Hs : exists msg,
        submission fuel w = (inr Stopped, w, [PreventDefault; ShowStatus msg "error"])).
    { revert Hv. unfold outcome, validateForm, submission, handleSubmit.
      destruct (str_falsy (videoUrl (form w)) || str_falsy (githubToken (form w))
                || str_falsy (repoOwner (form w)) || str_falsy (repoName (form w))) eqn:E1;
        [|destruct (negb (isValidUrl (videoUrl (form w)))) eqn:E2; [|discriminate]];
        intros _; eexists;
        (erewrite run_bind_value;
         [|do 2 step; erewrite run_bind_value;
           [|unfold validateForm; rewrite E1, ?E2; reflexivity]; reflexivity]);
        reflexivity. }
    destruct Hs as [msg Hs]. unfold effects. now rewrite Hs.
Qed.

(** *** What a submission may do *)

Lemma on_api data path more :
  disciplined data
    (Fetch (Request "GET" (apiBase data +:+ path)
              (apiHeaders (githubToken data) ++ more) None)).
Proof. split; eauto. Qed.

Lemma statusRequest_on_api data run :
  disciplined data (Fetch (statusRequest data run)).
Proof.
  split; [|now exists []].
  exists ("actions/runs/" +:+ toString run).
  unfold statusRequest, apiBase. cbn [url]. now rewrite !append_assoc.
Qed.

Lemma dispatchRequest_on_api data now :
  disciplined data (Fetch (dispatchRequest data now)).
Proof.
  split; [|now exists [("Content-Type", "application/json")]].
  exists "dispatches".
  unfold dispatchRequest, apiBase. cbn [url]. now rewrite !append_assoc.
Qed.

Ltac status_type := cbn; tauto.

Lemma getLatestWorkflowRun_disciplined data wt :
  always (disciplined data) (getLatestWorkflowRun data wt).
Proof.
  unfold getLatestWorkflowRun. walk; [exact I|].
  split; [|now exists []]. exists "actions/runs".
  unfold apiBase. cbn [url]. now rewrite !append_assoc.
Qed.

Lemma triggerWorkflow_disciplined data :
  always (disciplined data) (triggerWorkflow data).
Proof.
  unfold triggerWorkflow. pose proof getLatestWorkflowRun_disciplined.
  apply always_bind; [walk|intros w0].
  apply always_bind; [apply always_fetch, dispatchRequest_on_api|intros response].
  apply always_bind; [destruct (negb (ok response)); walk|intros _].
  apply always_bind; [auto|intros; walk].
Qed.

Lemma pollSend_disciplined data run n :
  always (disciplined data) (pollSend data run n).
Proof.
  unfold pollSend, checkWorkflowStatusSend.
  apply always_bind; [apply always_send, statusRequest_on_api|intros; walk].
Qed.

Lemma pollSettle_disciplined data p : always (disciplined data) (pollSettle p).
Proof.
  unfold pollSettle, checkWorkflowStatusSettle, showStatus, loadDownloads.
  walk; status_type.
Qed.

Lemma pollLoop_disciplined fuel : forall p,
  always (disciplined (pendingData p)) (pollLoop fuel p).
Proof.
  induction fuel as [|fuel IH]; intros p; cbn [pollLoop]; [walk|].
  apply always_bind; [apply pollSettle_disciplined|]. intros [|]; [|walk].
  intros w. unfold effects. rewrite run_bind, pollSend_run.
  specialize (IH (Pending (pendingData p) (pendingRun p) (N.succ (attempts p)) (sent w))
                (setSent w (S (sent w)))).
  unfold effects in IH. cbn [pendingData] in IH.
  destruct (pollLoop fuel _ _) as [[r w2] t2]. cbn in *.
  constructor; [apply statusRequest_on_api | exact IH].
Qed.

Lemma pollWorkflowStatus_disciplined data run :
  always (disciplined data) (pollWorkflowStatus data run).
Proof.
  unfold pollWorkflowStatus. pose proof pollSend_disciplined.
  destruct (negb (truthy run)); [walk|]. apply always_bind; [auto|intros; walk].
Qed.

Lemma dispatchAndPoll_disciplined data :
  always (disciplined data) (dispatchAndPoll data).
Proof.
  unfold dispatchAndPoll, showStatus, showWorkflowLink, setLoading.
  pose proof triggerWorkflow_disciplined. pose proof pollWorkflowStatus_disciplined.
  apply always_tryFinally; [|walk; exact I].
  apply always_tryCatch; [|intros e; walk; status_type].
  apply always_bind; [auto|intros res]. destruct (success res); [|walk].
  apply always_bind; [walk; status_type|intros _].
  apply always_bind; [walk; exact I|intros _]. auto.
Qed.

(** The tick [handleSubmit] leaves pending is the first one, for the data
    of the form. *)
Lemma dispatchAndPoll_pending data w p :
  outcome (dispatchAndPoll data) w = inr (Some p) ->
  pendingData p = data /\ attempts p = 1%N.
Proof.
  unfold outcome, dispatchAndPoll, tryFinally, tryCatch.
  rewrite run_bind.
  destruct (triggerWorkflow data w) as [[[e|res] w1] t1]; cbn.
  - rewrite run_bind. cbn. discriminate.
  - destruct (success res).
    + do 2 step. unfold pollWorkflowStatus.
      destruct (negb (truthy (runId res))); cbn; [discriminate|].
      rewrite run_bind, pollSend_run. cbn. now intros [= <-].
    + cbn. rewrite run_bind. cbn. discriminate.
Qed.

(** The three ways [validateForm] ends. *)
Lemma validateForm_cases data w :
  validateForm data w = (inr true, w, [])
  \/ validateForm data w =
       (inr false, w, [ShowStatus "Please fill in all required fields" "error"])
  \/ validateForm data w =
       (inr false, w, [ShowStatus "Please enter a valid YouTube or TikTok URL" "error"]).
Proof.
  unfold validateForm.
  destruct (str_falsy (videoUrl data) || str_falsy (githubToken data)
            || str_falsy (repoOwner data) || str_falsy (repoName data));
    [now right; left|].
  destruct (negb (isValidUrl (videoUrl data))); [now right; right | now left].
Qed.

(** A submission that fails validation shows the message and does nothing
    else. *)
Lemma submission_blocked fuel w text :
  validateForm (form w) w = (inr false, w, [ShowStatus text "error"]) ->
  submission fuel w = (inr Stopped, w, [PreventDefault; ShowStatus text "error"]).
Proof.
  intros Hv. unfold submission, handleSubmit.
  erewrite run_bind_value; cycle 1.
  { do 2 step. erewrite run_bind_value by exact Hv. reflexivity. }
  reflexivity.
Qed.

(** With every field filled in and a URL that neither pattern accepts, the
    submission is blocked: the page asks for a valid YouTube or TikTok URL,
    nothing is stored and no request is sent. *)
Theorem invalid_url_blocks_submission (w : world) (fuel : nat) :
  videoUrl (form w) <> "" -> githubToken (form w) <> "" ->
  repoOwner (form w) <> "" -> repoName (form w) <> "" ->
  isValidUrl (videoUrl (form w)) = false ->
  submission fuel w =
    (inr Stopped, w,
     [PreventDefault;
      ShowStatus "Please enter a valid YouTube or TikTok URL" "error"]).
Proof.
  intros Hu Ht Ho Hr Hv. apply submission_blocked. unfold validateForm.
  destruct (videoUrl (form w)) eqn:E1; [congruence|].
  destruct (githubToken (form w)); [congruence|].
  destruct (repoOwner (form w)); [congruence|].
  destruct (repoName (form w)); [congruence|].
  cbn [str_falsy orb]. now rewrite Hv.
Qed.

Lemma invalid_url_blocks_submission_witness :
  submission 30
    (sampleWorld (FormData "https://vimeo.com/1" "token" "video" "octo" "videos")
       offline)
  = (inr Stopped,
     sampleWorld (FormData "https://vimeo.com/1" "token" "video" "octo" "videos")
       offline,
     [PreventDefault;
      ShowStatus "Please enter a valid YouTube or TikTok URL" "error"]).
Proof.
  apply (invalid_url_blocks_submission
           (sampleWorld (FormData "https://vimeo.com/1" "token" "video" "octo" "videos")
              offline) 30);
    (discriminate || reflexivity).
Defined.

Lemma submitPrefix_disciplined data : Forall (disciplined data) (submitPrefix data).
Proof. repeat constructor; cbn; tauto. Qed.

(** [handleSubmit] catches whatever its [try] block throws. *)
Lemma dispatchAndPoll_catches data w e :
  outcome (dispatchAndPoll data) w <> inl e.
Proof.
  unfold outcome, dispatchAndPoll, tryFinally, tryCatch.
  destruct ((triggerWorkflow data ≫= _) w) as [[[e'|a] w1] t1]; cbn; [|discriminate].
  rewrite run_bind. cbn. discriminate.
Qed.

(** Every effect of a submission is one it may have: each request goes to
    the repository on the API with the credential of the form in its
    [Authorization] header, only the owner and the repo name are stored,
    each under its own key, and every status has one of the four types. *)
Theorem submission_disciplined (w : world) (fuel : nat) :
  Forall (disciplined (form w)) (effects (submission fuel) w).
Proof.
  destruct (validateForm_cases (form w) w) as [Hv|[Hv|Hv]].
  - assert (Ho : outcome (validateForm (form w)) w = inr true)
      by (unfold outcome; now rewrite Hv).
    unfold effects, submission. rewrite run_bind, (handleSubmit_valid w Ho).
    pose proof (dispatchAndPoll_disciplined (form w) (saved w)) as Hd.
    pose proof (dispatchAndPoll_pending (form w) (saved w)) as Hp.
    pose proof (submitPrefix_disciplined (form w)) as Hs.
    unfold effects, outcome, after in *.
    destruct (dispatchAndPoll (form w) (saved w)) as [[[e|[p|]] w1] t1];
      cbn [fst snd] in *.
    + apply Forall_app. now split.
    + destruct (Hp p eq_refl) as [Hdata _].
      pose proof (pollLoop_disciplined fuel p w1) as Hl. rewrite Hdata in Hl.
      unfold effects in Hl. destruct (pollLoop fuel p w1) as [[r w2] t2].
      cbn [fst snd] in *. rewrite !Forall_app. now repeat split.
    + cbn [fst snd mret M_ret ret]. rewrite app_nil_r. apply Forall_app. now split.
  - unfold effects. rewrite (submission_blocked _ _ _ Hv).
    repeat constructor; cbn; tauto.
  - unfold effects. rewrite (submission_blocked _ _ _ Hv).
    repeat constructor; cbn; tauto.
Qed.

(** A submission always comes to an end: unrolled as many times as the
    budget has attempts, its poll loop has stopped, whatever the form holds
    and whatever the network answers. *)
Theorem submission_terminates (w : world) :
  outcome (submission (N.to_nat maxAttempts)) w = inr Stopped.
Proof.
  destruct (validateForm_cases (form w) w) as [Hv|[Hv|Hv]].
  - assert (Ho : outcome (validateForm (form w)) w = inr true)
      by (unfold outcome; now rewrite Hv).
    unfold outcome at 1, submission. rewrite run_bind, (handleSubmit_valid w Ho).
    pose proof (dispatchAndPoll_pending (form w) (saved w)) as Hp.
    pose proof (dispatchAndPoll_catches (form w) (saved w)) as Hc.
    unfold outcome, after in *.
    destruct (dispatchAndPoll (form w) (saved w)) as [[[e|[p|]] w1] t1];
      cbn [fst snd] in *.
    + now destruct (Hc e).
    + destruct (Hp p eq_refl) as [_ Ha].
      pose proof (pollLoop_terminates (N.to_nat maxAttempts) p w1) as Ht.
      unfold outcome in Ht.
      destruct (pollLoop _ p w1) as [[r w2] t2]. cbn [fst snd] in *.
      apply Ht; unfold maxAttempts; rewrite ?Ha; lia.
    + reflexivity.
  - unfold outcome. now rewrite (submission_blocked _ _ _ Hv).
  - unfold outcome. now rewrite (submission_blocked _ _ _ Hv).
Qed.

(** *** The URLs validation accepts *)

Lemma drop_append p tail : drop (String.length p) (p +:+ tail) = tail.
Proof. induction p as [|c p IH]; [reflexivity|]. exact IH. Qed.

(** One step of a pattern: an alternative, then the rest. *)
Lemma alt_spec alternatives rest s :
  alt alternatives rest s = true <->
  exists p tail, In p alternatives /\ s = p +:+ tail /\ rest tail = true.
Proof.
  unfold alt. rewrite existsb_exists. split.
  - intros (p & Hin & [Hp Hr]%andb_true_iff).
    apply startsWith_spec in Hp as [tail ->].
    rewrite drop_append in Hr. now exists p, tail.
  - intros (p & tail & Hin & -> & Hr). exists p. split; [exact Hin|].
    apply andb_true_iff. split.
    + apply startsWith_spec. now exists tail.
    + now rewrite drop_append.
Qed.

(** The shape of a URL [isValidUrl] accepts: an optional [http://] or
    [https://], an optional [www.], one of the three hosts as written, a
    slash, and at least one character that is not a line terminator. *)
Theorem isValidUrl_shape (url : string) :
  isValidUrl url = true <->
  exists scheme www host path,
    In scheme ["https://"; "http://"; ""]
    /\ In www ["www."; ""]
    /\ In host ["youtube.com"; "youtu.be"; "tiktok.com"]
    /\ path <> "" /\ startsWithLineTerminator path = false
    /\ url = scheme +:+ www +:+ host +:+ "/" +:+ path.
Proof.
  assert (Hdot : forall path, dotPlus path = true <->
                   path <> "" /\ startsWithLineTerminator path = false).
  { intros [|c path]; cbn [dotPlus].
    - split; [discriminate | now intros [? _]].
    - rewrite negb_true_iff. split; [now split | now intros [_ ?]]. }
  unfold isValidUrl, youtubeRegex, tiktokRegex, schemeOpt, wwwOpt.
  rewrite orb_true_iff, !alt_spec. split.
  - intros [H|H];
      destruct H as (scheme & s1 & Hs & -> & H); apply alt_spec in H;
      destruct H as (www & s2 & Hw & -> & H); apply alt_spec in H;
      destruct H as (host & s3 & Hh & -> & H); apply alt_spec in H;
      destruct H as (slash & path & Hsl & -> & H); apply Hdot in H as [H1 H2];
      destruct Hsl as [<-|[]];
      exists scheme, www, host, path; repeat split; auto; cbn in *; tauto.
  - intros (scheme & www & host & path & Hs & Hw & Hh & H1 & H2 & ->).
    assert (Hrest : forall hosts, In host hosts ->
              alt wwwOpt (alt hosts (alt ["/"] dotPlus))
                (www +:+ host +:+ "/" +:+ path) = true).
    { intros hosts Hin. apply alt_spec. exists www, (host +:+ "/" +:+ path).
      repeat split; [exact Hw|]. apply alt_spec. exists host, ("/" +:+ path).
      repeat split; [exact Hin|]. apply alt_spec. exists "/", path.
      repeat split; [now left|]. now apply Hdot. }
    destruct Hh as [<-|[<-|[<-|[]]]];
      [left|left|right]; exists scheme; eexists;
      (split; [exact Hs|]); (split; [reflexivity|]); apply Hrest; cbn; tauto.
Qed.

Lemma occursIn_middle before t rest : occursIn t (before +:+ t +:+ rest).
Proof. now exists before, rest. Qed.

(** A URL that passes validation is never classified as generic: the
    trigger is ['download-youtube'] or ['download-tiktok'], and it is
    ['download-youtube'] whenever the YouTube pattern accepts the URL. *)
Theorem valid_url_has_a_workflow (url : string) :
  isValidUrl url = true ->
  (getWorkflowType url = "download-youtube"
   \/ getWorkflowType url = "download-tiktok")
  /\ (youtubeRegex url = true -> getWorkflowType url = "download-youtube").
Proof.
  assert (Hy : youtubeRegex url = true -> getWorkflowType url = "download-youtube").
  { unfold youtubeRegex, schemeOpt, wwwOpt. intros H.
    apply alt_spec in H as (scheme & s1 & _ & -> & H).
    apply alt_spec in H as (www & s2 & _ & -> & H).
    apply alt_spec in H as (host & s3 & Hh & -> & _).
    apply getWorkflowType_youtube.
    destruct Hh as [<-|[<-|[]]]; [left|right];
      exists (scheme +:+ www), s3; now rewrite append_assoc. }
  intros Hv. split; [|exact Hy].
  unfold isValidUrl in Hv. apply orb_true_iff in Hv as [H|H]; [left; auto|].
  unfold tiktokRegex, schemeOpt, wwwOpt in H.
  apply alt_spec in H as (scheme & s1 & _ & -> & H).
  apply alt_spec in H as (www & s2 & _ & -> & H).
  apply alt_spec in H as (host & s3 & [<-|[]] & -> & _).
  assert (Hin : includes (scheme +:+ www +:+ "tiktok.com" +:+ s3) "tiktok.com" = true).
  { apply includes_spec. exists (scheme +:+ www), s3. now rewrite append_assoc. }
  unfold getWorkflowType. rewrite Hin. destruct (_ || _); auto.
Qed.

Lemma valid_url_has_a_workflow_witness :
  getWorkflowType "https://www.tiktok.com/@user/video/1" = "download-youtube"
  \/ getWorkflowType "https://www.tiktok.com/@user/video/1" = "download-tiktok".
Proof.
  apply (valid_url_has_a_workflow "https://www.tiktok.com/@user/video/1").
  reflexivity.
Defined.

(** *** The dispatch client and the run locator, case by case *)

Lemma triggerWorkflow_refused_effects data w r :
  network w (sent w) = inr r ->
  ok r = false ->
  effects (triggerWorkflow data) w = [Fetch (dispatchRequest data (clock w))].
Proof.
  intros Hn Hok. pose proof (triggerWorkflow_refused data w r Hn Hok) as H.
  destruct (getProp (match json r with inl _ => JObj [] | inr v => v end) "message")
    as [e|m] eqn:Hm.
  - unfold effects, triggerWorkflow. step.
    erewrite run_bind_value by (apply fetch_answered; exact Hn).
    rewrite Hok. cbn [negb].
    erewrite run_bind_throw; [reflexivity|].
    erewrite run_bind_throw; [reflexivity|].
    unfold liftResult. now rewrite Hm.
  - specialize (H _ eq_refl). unfold effects. now rewrite H.
Qed.

(** A refused dispatch: only the dispatch request is sent, the locator is
    not asked.  The error carries the message of the body when that is a
    non-empty string, and the status line when the body does not parse, has
    no message, or has an empty one. *)
Theorem refused_dispatch_error (data : formData) (w : world) (r : response) :
  network w (sent w) = inr r ->
  ok r = false ->
  effects (triggerWorkflow data) w = [Fetch (dispatchRequest data (clock w))]
  /\ (forall e, json r = inl e ->
      outcome (triggerWorkflow data) w = inl (Error (statusLine r)))
  /\ (forall fields, json r = inr (JObj fields) ->
      lookupField fields "message" = JUndefined ->
      outcome (triggerWorkflow data) w = inl (Error (statusLine r)))
  /\ (forall fields text, json r = inr (JObj fields) ->
      lookupField fields "message" = JStr text ->
      outcome (triggerWorkflow data) w
        = inl (Error (if str_falsy text then statusLine r else text))).
Proof.
  intros Hn Hok. pose proof (triggerWorkflow_refused data w r Hn Hok) as H.
  split; [|split; [|split]].
  - now apply (triggerWorkflow_refused_effects data w r).
  - intros e Hj. rewrite Hj in H. specialize (H _ eq_refl).
    unfold outcome. now rewrite H.
  - intros fields Hj Hm. rewrite Hj in H. cbn in H. rewrite Hm in H.
    specialize (H _ eq_refl). unfold outcome. now rewrite H.
  - intros fields text Hj Hm. rewrite Hj in H. cbn in H. rewrite Hm in H.
    specialize (H _ eq_refl). unfold outcome. rewrite H. cbn.
    now destruct text.
Qed.

Lemma refused_dispatch_error_witness :
  outcome (triggerWorkflow sampleForm) (sampleWorld sampleForm rejecting)
  = inl (Error "Bad request").
Proof.
  apply (refused_dispatch_error sampleForm (sampleWorld sampleForm rejecting)
           (Response 422 "Unprocessable Entity"
              (inr (JObj [("message", JStr "Bad request")])))
           eq_refl eq_refl)
    with (fields := [("message", JStr "Bad request")]) (text := "Bad request");
    reflexivity.
Defined.

(** The locator on the answer to its request. *)
Section Locator.

Variables (data : formData) (workflowType : string) (w : world).

Lemma locator_rejected e :
  network w (sent w) = inl e ->
  getLatestWorkflowRun data workflowType w
  = (inl e, setSent w (S (sent w)), [Delay 2000; Fetch (listingRequest data)]).
Proof.
  intros Hn. unfold getLatestWorkflowRun. step.
  erewrite run_bind_throw; [reflexivity|].
  now apply fetch_rejected.
Qed.

Lemma locator_answered r :
  network w (sent w) = inr r ->
  getLatestWorkflowRun data workflowType w
  = (if ok r then
       match json r with
       | inr body =>
           match getProp body "workflow_runs" with
           | inr runs =>
               match getFirst runs with
               | inr latestRun =>
                   if truthy latestRun then getProp latestRun "id" else inr JNull
               | inl e => inl e
               end
           | inl e => inl e
           end
       | inl e => inl e
       end
     else inr JNull,
     setSent w (S (sent w)), [Delay 2000; Fetch (listingRequest data)]).
Proof.
  intros Hn. unfold getLatestWorkflowRun. step.
  erewrite run_bind_value by (apply fetch_answered; exact Hn).
  destruct (ok r); [|reflexivity].
  unfold liftResult. rewrite run_bind.
  destruct (json r) as [e|body]; [reflexivity|]. cbn. rewrite run_bind.
  destruct (getProp body "workflow_runs") as [e|runs]; [reflexivity|]. cbn.
  rewrite run_bind.
  destruct (getFirst runs) as [e|latest]; [reflexivity|]. cbn.
  destruct (truthy latest); [|reflexivity].
  now destruct (getProp latest "id").
Qed.

End Locator.

(** What the locator resolves: no identifier and no error when the listing
    is answered outside 200-299 or lists no run; the [id] of the first
    listed run, whatever follows it and whichever workflow was dispatched;
    and an exception when the body has no [workflow_runs]. *)
Theorem locator_outcomes (data : formData) (workflowType : string)
    (w : world) (r : response) :
  network w (sent w) = inr r ->
  effects (getLatestWorkflowRun data workflowType) w
    = [Delay 2000; Fetch (listingRequest data)]
  /\ (ok r = false ->
      outcome (getLatestWorkflowRun data workflowType) w = inr JNull)
  /\ (ok r = true ->
      forall fields, json r = inr (JObj fields) ->
      (lookupField fields "workflow_runs" = JArr [] ->
       outcome (getLatestWorkflowRun data workflowType) w = inr JNull)
      /\ (forall run others,
          lookupField fields "workflow_runs" = JArr (JObj run :: others) ->
          outcome (getLatestWorkflowRun data workflowType) w
            = inr (lookupField run "id"))
      /\ (lookupField fields "workflow_runs" = JUndefined ->
          outcome (getLatestWorkflowRun data workflowType) w
            = inl (cannotRead "undefined" "0"))).
Proof.
  intros Hn. pose proof (locator_answered data workflowType w r Hn) as H.
  unfold outcome, effects. rewrite H. cbn [fst snd].
  split; [reflexivity|]. split.
  - now intros ->.
  - intros -> fields ->. cbn. repeat split.
    + now intros ->.
    + now intros run others ->.
    + now intros ->.
Qed.

Lemma locator_outcomes_witness :
  effects (getLatestWorkflowRun sampleForm "download-youtube")
    (sampleWorld sampleForm rejecting)
  = [Delay 2000; Fetch (listingRequest sampleForm)].
Proof.
  apply (locator_outcomes sampleForm "download-youtube"
           (sampleWorld sampleForm rejecting)
           (Response 422 "Unprocessable Entity"
              (inr (JObj [("message", JStr "Bad request")])))).
  reflexivity.
Defined.

(** An accepted dispatch hands over to the locator. *)
Lemma triggerWorkflow_accepted data w r :
  network w (sent w) = inr r ->
  ok r = true ->
  let locate := getLatestWorkflowRun data (getWorkflowType (videoUrl data)) in
  let w1 := setSent w (S (sent w)) in
  triggerWorkflow data w =
    (match outcome locate w1 with
     | inl e => inl e
     | inr id => inr (DispatchResult true id)
     end,
     after locate w1,
     Fetch (dispatchRequest data (clock w)) :: effects locate w1).
Proof.
  intros Hn Hok locate w1. unfold triggerWorkflow. step.
  erewrite run_bind_value by (apply fetch_answered; exact Hn).
  rewrite Hok. cbn [negb]. step. rewrite run_bind.
  unfold outcome, after, effects. subst locate w1. cbn [fst snd app].
  destruct (getLatestWorkflowRun _ _ _) as [[[e|id] w2] t2]; cbn;
    [reflexivity | now rewrite app_nil_r].
Qed.

(** With a run identifier, [handleSubmit] announces the run, shows its link,
    starts the poller and only then enables the button again. *)
Lemma dispatchAndPoll_polls data w res :
  outcome (triggerWorkflow data) w = inr res ->
  truthy (runId res) = true ->
  let w1 := after (triggerWorkflow data) w in
  dispatchAndPoll data w =
    (inr (Some (Pending data (runId res) 1 (sent w1))),
     setSent w1 (S (sent w1)),
     effects (triggerWorkflow data) w
       ++ [ShowStatus ("Workflow triggered successfully! Run ID: "
                         +:+ toString (runId res)) "success";
           ShowWorkflowLink
             ("https://github.com/" +:+ repoOwner data +:+ "/" +:+ repoName data
                +:+ "/actions/runs/" +:+ toString (runId res));
           Fetch (statusRequest data (runId res));
           SetLoading false]).
Proof.
  intros Ho Hr. pose proof (triggerWorkflow_success _ _ _ Ho) as Hs.
  revert Ho.
  unfold outcome, after, effects, dispatchAndPoll, tryFinally, tryCatch.
  rewrite run_bind.
  destruct (triggerWorkflow data w) as [[[e'|a] w1] t1]; cbn; [discriminate|].
  intros [= ->]. rewrite Hs. do 2 step.
  unfold pollWorkflowStatus. rewrite Hr. cbn [negb].
  rewrite run_bind, pollSend_run. cbn. now rewrite <- app_assoc.
Qed.

(** *** The poller: how a loop ends *)

Lemma strictEqStr_true v text : strictEqStr v text = true -> v = JStr text.
Proof.
  destruct v; cbn; try discriminate. now intros ->%String.eqb_eq.
Qed.

Section TickMore.

Variables (p : pending) (w : world).

Lemma pollSettle_failure :
  failedRun (network w (ticket p)) = true ->
  pollSettle p w = (inr false, w, [ShowStatus failureText "error"]).
Proof.
  unfold failedRun.
  destruct (runStatus (network w (ticket p))) as [[c l]|] eqn:Hr; [|discriminate].
  intros ->%strictEqStr_true.
  destruct (runStatus_read _ _ _ _ Hr) as (body & Hb & Hbc & _).
  unfold pollSettle, tryCatch. rewrite run_bind, Hb.
  unfold liftResult. rewrite run_bind, Hbc. reflexivity.
Qed.

(** At the last attempt a run without conclusion gives the timeout, whether
    it is in progress or not. *)
Lemma pollSettle_budget :
  unconcluded (network w (ticket p)) = true ->
  (maxAttempts <= attempts p)%N ->
  pollSettle p w = (inr false, w, [ShowStatus timeoutText "warning"]).
Proof.
  unfold unconcluded, concluded.
  destruct (runStatus (network w (ticket p))) as [[c l]|] eqn:Hr; [|discriminate].
  intros [Hs Hf]%negb_true_iff%orb_false_iff Ha.
  assert (Hlt : (attempts p <? maxAttempts)%N = false) by (apply N.ltb_ge; lia).
  apply N.leb_le in Ha.
  destruct (runStatus_read _ _ _ _ Hr) as (body & Hb & Hbc & Hbl).
  unfold pollSettle, tryCatch. rewrite run_bind, Hb.
  unfold liftResult. rewrite run_bind, Hbc, Hs, Hf.
  rewrite run_bind, Hbl, Hlt, Ha, andb_false_r. reflexivity.
Qed.

End TickMore.

(** [k] ticks in progress and then a tick that sets no timer. *)
Lemma pollLoop_progress_then k fuel p w t :
  sent w = S (ticket p) ->
  (forall i, i < k -> inProgress (network w (ticket p + i)) = true) ->
  (attempts p + N.of_nat k <= maxAttempts)%N ->
  let p' := Pending (pendingData p) (pendingRun p)
              (attempts p + N.of_nat k) (ticket p + k) in
  let w' := setSent w (sent w + k) in
  pollSettle p' w' = (inr false, w', t) ->
  pollLoop (k + S fuel) p w =
    (inr Stopped, w',
     progressRounds (pendingData p) (pendingRun p) (attempts p) k ++ t).
Proof.
  intros Hs Hin Hle p' w' Ht.
  rewrite (pollLoop_progress k (S fuel) p w Hs Hin Hle).
  unfold outcome, after, effects. fold p' w'.
  now rewrite (pollLoop_stops fuel p' w' t Ht).
Qed.

Lemma poller_progress_then k fuel data run w t :
  truthy run = true ->
  (forall i, i < k -> inProgress (network w (sent w + i)) = true) ->
  (N.of_nat k < maxAttempts)%N ->
  k < fuel ->
  let p' := Pending data run (1 + N.of_nat k) (sent w + k) in
  let w' := setSent w (sent w + S k) in
  pollSettle p' w' = (inr false, w', t) ->
  poller fuel data run w =
    (inr Stopped, w', Fetch (statusRequest data run) :: progressRounds data run 1 k ++ t).
Proof.
  intros Hr Hin Hk Hfuel p' w' Ht.
  replace fuel with (k + S (fuel - S k)) by lia.
  rewrite poller_progress by assumption.
  unfold outcome, after, effects. subst p' w'.
  replace (S (sent w + k)) with (sent w + S k) by lia.
  now rewrite (pollLoop_stops _ _ _ _ Ht).
Qed.

(** After any number of ticks in progress, up to 29, a tick that finds the
    run concluded reports the conclusion and ends the loop: success is
    shown and the downloads listing refreshed, failure is shown as an
    error without a refresh.  This holds at the 30th attempt too, where
    the conclusion takes precedence over the timeout.  The run identifier is
    a [printable] one. *)
Theorem poller_reports_conclusion (data : formData) (run : jsval)
    (w : world) (k fuel : nat) :
  truthy run = true ->
  printable run = true ->
  (forall i, i < k -> inProgress (network w (sent w + i)) = true) ->
  k < 30 -> k < fuel ->
  (succeeded (network w (sent w + k)) = true ->
   poller fuel data run w =
     (inr Stopped, setSent w (sent w + S k),
      Fetch (statusRequest data run) :: progressRounds data run 1 k
        ++ [ShowStatus successText "success"; LoadDownloads]))
  /\ (failedRun (network w (sent w + k)) = true ->
      poller fuel data run w =
        (inr Stopped, setSent w (sent w + S k),
         Fetch (statusRequest data run) :: progressRounds data run 1 k
           ++ [ShowStatus failureText "error"])).
Proof.
  intros Hr _ Hin Hk Hfuel. split; intros Hend;
    apply poller_progress_then; try assumption; try (unfold maxAttempts; lia).
  - now apply pollSettle_success.
  - now apply pollSettle_failure.
Qed.

Lemma poller_reports_conclusion_witness :
  poller 30 sampleForm (JNum 7) (sampleWorld sampleForm failsAtLast) =
    (inr Stopped, setSent (sampleWorld sampleForm failsAtLast) 30,
     Fetch (statusRequest sampleForm (JNum 7))
       :: progressRounds sampleForm (JNum 7) 1 29
       ++ [ShowStatus failureText "error"]).
Proof.
  apply (poller_reports_conclusion sampleForm (JNum 7)
           (sampleWorld sampleForm failsAtLast) 29 30).
  - reflexivity.
  - reflexivity.
  - intros i Hi. cbn [sampleWorld network sent Nat.add]. unfold failsAtLast.
    destruct (Nat.ltb_spec i 29); [reflexivity | lia].
  - lia.
  - lia.
  - reflexivity.
Defined.

(** At the 30th attempt a run that is still without conclusion gives the
    timeout warning whatever its lifecycle status: in progress, or queued
    or cancelled, which at an earlier attempt ends the loop in silence.  The
    run identifier is a [printable] one. *)
Theorem poller_times_out_at_last_attempt (data : formData) (run : jsval)
    (w : world) (fuel : nat) :
  truthy run = true ->
  printable run = true ->
  (forall i, i < 29 -> inProgress (network w (sent w + i)) = true) ->
  unconcluded (network w (sent w + 29)) = true ->
  30 <= fuel ->
  poller fuel data run w =
    (inr Stopped, setSent w (sent w + 30),
     Fetch (statusRequest data run) :: progressRounds data run 1 29
       ++ [ShowStatus timeoutText "warning"]).
Proof.
  intros Hr _ Hin Hend Hfuel.
  apply poller_progress_then; try assumption; try (unfold maxAttempts; lia).
  apply pollSettle_budget; [exact Hend | reflexivity].
Qed.

Lemma poller_times_out_at_last_attempt_witness :
  poller 30 sampleForm (JNum 7) (sampleWorld sampleForm queuedAtLast) =
    (inr Stopped, setSent (sampleWorld sampleForm queuedAtLast) 30,
     Fetch (statusRequest sampleForm (JNum 7))
       :: progressRounds sampleForm (JNum 7) 1 29
       ++ [ShowStatus timeoutText "warning"]).
Proof.
  apply (poller_times_out_at_last_attempt sampleForm (JNum 7)
           (sampleWorld sampleForm queuedAtLast) 30).
  - reflexivity.
  - reflexivity.
  - intros i Hi. cbn [sampleWorld network sent Nat.add]. unfold queuedAtLast.
    destruct (Nat.ltb_spec i 29); [reflexivity | lia].
  - reflexivity.
  - lia.
Defined.

(** *** The budget of the poller *)

(** What a tick can do: go on, with the progress line and the timer, below
    the budget only; or end, with at most one closing message. *)
Lemma pollSettle_shape p w :
  exists again t,
    pollSettle p w = (inr again, w, t)
    /\ ((again = true /\ (attempts p < maxAttempts)%N
         /\ t = [ShowStatus (progressText (attempts p)) "info"; SetTimeout 10000])
        \/ (again = false /\ List.filter isFetch t = []
            /\ List.filter isTimer t = []
            /\ length (List.filter isTerminalReport t) <= 1)).
Proof.
  unfold pollSettle, tryCatch.
  rewrite run_bind, checkWorkflowStatusSettle_pure.
  destruct (outcome (checkWorkflowStatusSettle (ticket p)) w) as [e|body];
    [eexists _, _; split; [reflexivity|right; cbn; auto]|].
  unfold liftResult. rewrite run_bind.
  destruct (getProp body "conclusion") as [e|c];
    [eexists _, _; split; [reflexivity|right; cbn; auto]|].
  destruct (strictEqStr c "success");
    [eexists _, _; split; [reflexivity|right; cbn; auto]|].
  destruct (strictEqStr c "failure");
    [eexists _, _; split; [reflexivity|right; cbn; auto]|].
  rewrite run_bind.
  destruct (getProp body "status") as [e|l];
    [eexists _, _; split; [reflexivity|right; cbn; auto]|].
  destruct (strictEqStr l "in_progress"); cbn [andb].
  - destruct (attempts p <? maxAttempts)%N eqn:Ha.
    + eexists _, _. split; [reflexivity|]. left. apply N.ltb_lt in Ha. auto.
    + destruct (maxAttempts <=? attempts p)%N;
        eexists _, _; (split; [reflexivity|right; cbn; auto]).
  - destruct (maxAttempts <=? attempts p)%N;
      eexists _, _; (split; [reflexivity|right; cbn; auto]).
Qed.

Lemma pollLoop_bounded fuel : forall p w,
  let t := effects (pollLoop fuel p) w in
  length (List.filter isFetch t) <= 30 - N.to_nat (attempts p)
  /\ length (List.filter isTimer t) = length (List.filter isFetch t)
  /\ length (List.filter isTerminalReport t) <= 1.
Proof.
  induction fuel as [|fuel IH]; intros p w; cbn zeta.
  - cbn. lia.
  - unfold effects. cbn [pollLoop]. rewrite run_bind.
    destruct (pollSettle_shape p w) as (again & t & Hs & Hcase). rewrite Hs.
    destruct Hcase as [(-> & Ha & ->)|(-> & Hf & Ht & Hr)].
    + rewrite run_bind, pollSend_run.
      specialize (IH (Pending (pendingData p) (pendingRun p) (N.succ (attempts p))
                        (sent w)) (setSent w (S (sent w)))).
      cbn zeta in IH. unfold effects in IH. cbn [attempts] in IH.
      destruct (pollLoop fuel _ _) as [[r w2] t2]. cbn [fst snd] in *.
      assert (Hpt : isTerminalReport (ShowStatus (progressText (attempts p)) "info")
                    = false) by reflexivity.
      unfold maxAttempts in Ha.
      cbn [app List.filter isFetch isTimer]. rewrite Hpt.
      cbn [isTerminalReport length]. lia.
    + cbn. rewrite app_nil_r, Hf, Ht. cbn. lia.
Qed.

(** Whatever the network answers and however far the loop is unrolled, the
    poller sends at most 30 status requests, sets at most 29 timers, and
    shows at most one of the three closing messages. *)
Theorem poller_bounded (data : formData) (run : jsval) (w : world) (fuel : nat) :
  length (List.filter isFetch (effects (poller fuel data run) w))
    <= N.to_nat maxAttempts
  /\ length (List.filter isTimer (effects (poller fuel data run) w)) <= 29
  /\ length (List.filter isTerminalReport (effects (poller fuel data run) w)) <= 1.
Proof.
  destruct (truthy run) eqn:Hr.
  - unfold effects at 1 2 3. rewrite (poller_run _ _ _ _ Hr). cbn [snd].
    pose proof (pollLoop_bounded fuel (Pending data run 1 (sent w))
                  (setSent w (S (sent w)))) as H.
    cbn zeta in H. cbn [attempts] in H.
    cbn [List.filter isFetch isTimer isTerminalReport length].
    unfold maxAttempts. lia.
  - unfold effects, poller, pollWorkflowStatus. rewrite Hr.
    cbn [negb]. step. cbn. lia.
Qed.

(** *** A submission, path by path *)

Lemma submission_without_poll fuel w w' t :
  handleSubmit w = (inr None, w', t) ->
  submission fuel w = (inr Stopped, w', t).
Proof.
  intros H. unfold submission. rewrite run_bind, H. cbn. now rewrite app_nil_r.
Qed.

Lemma submission_with_poll fuel w w' t p :
  handleSubmit w = (inr (Some p), w', t) ->
  submission fuel w =
    (outcome (pollLoop fuel p) w', after (pollLoop fuel p) w',
     t ++ effects (pollLoop fuel p) w').
Proof.
  intros H. unfold submission. rewrite run_bind, H.
  unfold outcome, after, effects. now destruct (pollLoop fuel p w') as [[? ?] ?].
Qed.

Lemma triggerWorkflow_rejected data w e :
  network w (sent w) = inl e ->
  triggerWorkflow data w =
    (inl e, setSent w (S (sent w)), [Fetch (dispatchRequest data (clock w))]).
Proof.
  intros Hn. unfold triggerWorkflow. step.
  erewrite run_bind_throw; [reflexivity|]. now apply fetch_rejected.
Qed.

(** When the dispatch request itself fails (the network is down), a valid
    submission stores the two fields, sends that one request, shows the
    error of [fetch] after ['Error: '], enables the button again, and
    neither locates nor polls a run. *)
Theorem dispatch_network_failure (w : world) (fuel : nat) (e : js_error) :
  outcome (validateForm (form w)) w = inr true ->
  network w (sent w) = inl e ->
  submission fuel w =
    (inr Stopped, setSent (saved w) (S (sent w)),
     submitPrefix (form w)
       ++ [Fetch (dispatchRequest (form w) (clock w));
           ShowStatus ("Error: " +:+ message e) "error";
           SetLoading false]).
Proof.
  intros Hv Hn. apply submission_without_poll.
  rewrite (handleSubmit_valid w Hv).
  pose proof (triggerWorkflow_rejected (form w) (saved w) e Hn) as Ht.
  assert (Ho : outcome (triggerWorkflow (form w)) (saved w) = inl e)
    by (unfold outcome; now rewrite Ht).
  unfold outcome at 1, after at 1, effects at 1.
  rewrite (dispatchAndPoll_reports _ _ _ Ho).
  unfold after, effects. rewrite Ht. reflexivity.
Qed.

Lemma dispatch_network_failure_witness :
  submission 30 (sampleWorld sampleForm offline) =
    (inr Stopped, setSent (saved (sampleWorld sampleForm offline)) 1,
     submitPrefix sampleForm
       ++ [Fetch (dispatchRequest sampleForm "2024-01-01T00:00:00.000Z");
           ShowStatus "Error: Failed to fetch" "error";
           SetLoading false]).
Proof.
  apply (dispatch_network_failure (sampleWorld sampleForm offline) 30
           (Error "Failed to fetch")); reflexivity.
Defined.

(** When the dispatch is accepted and the listing request of the locator
    then fails, the submission is reported as an error and no run is
    polled, although the workflow has been dispatched. *)
Theorem locator_failure_after_dispatch (w : world) (fuel : nat)
    (r : response) (e : js_error) :
  outcome (validateForm (form w)) w = inr true ->
  network w (sent w) = inr r -> ok r = true ->
  network w (S (sent w)) = inl e ->
  submission fuel w =
    (inr Stopped, setSent (saved w) (S (S (sent w))),
     submitPrefix (form w)
       ++ [Fetch (dispatchRequest (form w) (clock w));
           Delay 2000;
           Fetch (listingRequest (form w));
           ShowStatus ("Error: " +:+ message e) "error";
           SetLoading false]).
Proof.
  intros Hv Hn Hok Hl. apply submission_without_poll.
  rewrite (handleSubmit_valid w Hv).
  pose proof (triggerWorkflow_accepted (form w) (saved w) r Hn Hok) as Ht.
  cbn zeta in Ht. unfold outcome, after, effects in Ht.
  rewrite (locator_rejected (form w) _ (setSent (saved w) (S (sent (saved w)))) e Hl)
    in Ht.
  cbn [fst snd] in Ht.
  assert (Ho : outcome (triggerWorkflow (form w)) (saved w) = inl e)
    by (unfold outcome; now rewrite Ht).
  unfold outcome at 1, after at 1, effects at 1.
  rewrite (dispatchAndPoll_reports _ _ _ Ho).
  unfold after, effects. rewrite Ht. reflexivity.
Qed.

Lemma locator_failure_after_dispatch_witness :
  submission 30 (sampleWorld sampleForm downAfterDispatch) =
    (inr Stopped, setSent (saved (sampleWorld sampleForm downAfterDispatch)) 2,
     submitPrefix sampleForm
       ++ [Fetch (dispatchRequest sampleForm "2024-01-01T00:00:00.000Z");
           Delay 2000;
           Fetch (listingRequest sampleForm);
           ShowStatus "Error: Failed to fetch" "error";
           SetLoading false]).
Proof.
  apply (locator_failure_after_dispatch (sampleWorld sampleForm downAfterDispatch) 30
           (Response 204 "No Content" (inl (Error "Unexpected end of JSON input")))
           (Error "Failed to fetch")); reflexivity.
Defined.

Lemma triggerWorkflow_located data w id :
  located w id ->
  triggerWorkflow data w =
    (inr (DispatchResult true id), setSent w (S (S (sent w))),
     [Fetch (dispatchRequest data (clock w)); Delay 2000;
      Fetch (listingRequest data)]).
Proof.
  intros (r1 & r2 & fields & run & others & Hn1 & Hok1 & Hn2 & Hok2 & Hj & Hruns
          & Hid & _).
  rewrite (triggerWorkflow_accepted data w r1 Hn1 Hok1).
  unfold outcome, after, effects.
  rewrite (locator_answered data _ (setSent w (S (sent w))) r2 Hn2).
  rewrite Hok2, Hj. cbn. rewrite Hruns. cbn. now rewrite Hid.
Qed.

Lemma handleSubmit_located (w : world) (id : jsval) :
  outcome (validateForm (form w)) w = inr true ->
  located w id ->
  handleSubmit w =
    (inr (Some (Pending (form w) id 1 (sent w + 2))),
     setSent (saved w) (sent w + 3),
     submitTrace (form w) (clock w) id).
Proof.
  intros Hv Hl. rewrite (handleSubmit_valid w Hv).
  assert (Hl' : located (saved w) id) by exact Hl.
  pose proof (triggerWorkflow_located (form w) (saved w) id Hl') as Ht.
  assert (Ho : outcome (triggerWorkflow (form w)) (saved w)
               = inr (DispatchResult true id))
    by (unfold outcome; now rewrite Ht).
  destruct Hl as (_ & _ & _ & _ & _ & _ & _ & _ & _ & _ & _ & _ & Htruthy).
  unfold outcome at 1, after at 1, effects at 1.
  rewrite (dispatchAndPoll_polls _ _ _ Ho Htruthy). cbn zeta.
  unfold after, effects. rewrite Ht.
  cbn [fst snd runId sent setSent saved setStorage localStorage form clock network].
  unfold submitTrace.
  replace (S (S (sent w))) with (sent w + 2) by lia.
  now replace (S (sent w + 2)) with (sent w + 3) by lia.
Qed.

(** When the run is located, the submission announces it with its
    identifier, shows the link to its page, sends the first status request
    and only then enables the button again, whatever the status requests are
    answered; [handleSubmit] leaves the first tick of the poller pending.
    The identifier listed is a [printable] one, a safe integer as the API
    gives: the page prints it into the status, the link and the address of
    the request. *)
Theorem submission_announces_run (w : world) (id : jsval) (fuel : nat) :
  outcome (validateForm (form w)) w = inr true ->
  located w id ->
  printable id = true ->
  outcome handleSubmit w = inr (Some (Pending (form w) id 1 (sent w + 2)))
  /\ submitTrace (form w) (clock w) id `prefix_of` effects (submission fuel) w.
Proof.
  intros Hv Hl _. pose proof (handleSubmit_located w id Hv Hl) as Hh.
  split; [unfold outcome; now rewrite Hh|].
  unfold effects. rewrite (submission_with_poll fuel w _ _ _ Hh). cbn [snd].
  now eexists.
Qed.

Lemma submission_announces_run_witness :
  outcome handleSubmit (sampleWorld sampleForm smooth)
  = inr (Some (Pending sampleForm (JNum 7) 1 2)).
Proof.
  apply (submission_announces_run (sampleWorld sampleForm smooth) (JNum 7) 30).
  - reflexivity.
  - eexists _, _, _, _, _. repeat split; reflexivity.
  - reflexivity.
Defined.

(** A whole submission that succeeds: the run is located, found in progress
    at [k] ticks, at most 29, and then succeeded.  The page goes through the
    dispatch, the announcement of the run, [k] progress lines and the
    success message, refreshes the downloads listing, and stops.  The
    identifier listed is a [printable] one. *)
Theorem submission_succeeds (w : world) (id : jsval) (k fuel : nat) :
  outcome (validateForm (form w)) w = inr true ->
  located w id ->
  printable id = true ->
  (forall i, i < k -> inProgress (network w (sent w + 2 + i)) = true) ->
  succeeded (network w (sent w + 2 + k)) = true ->
  k < 30 -> k < fuel ->
  submission fuel w =
    (inr Stopped, setSent (saved w) (sent w + 3 + k),
     submitTrace (form w) (clock w) id
       ++ progressRounds (form w) id 1 k
       ++ [ShowStatus successText "success"; LoadDownloads]).
Proof.
  intros Hv Hl _ Hin Hend Hk Hfuel.
  rewrite (submission_with_poll fuel w _ _ _ (handleSubmit_located w id Hv Hl)).
  unfold outcome, after, effects.
  replace fuel with (k + S (fuel - S k)) by lia.
  rewrite (pollLoop_progress_then k (fuel - S k)
             (Pending (form w) id 1 (sent w + 2))
             (setSent (saved w) (sent w + 3))
             [ShowStatus successText "success"; LoadDownloads]).
  - cbn [fst snd pendingData pendingRun attempts sent setSent].
    reflexivity.
  - cbn [sent setSent ticket]. lia.
  - exact Hin.
  - cbn [attempts]. unfold maxAttempts. lia.
  - apply pollSettle_success. exact Hend.
Qed.

Lemma submission_succeeds_witness :
  submission 30 (sampleWorld sampleForm smooth) =
    (inr Stopped, setSent (saved (sampleWorld sampleForm smooth)) 4,
     submitTrace sampleForm "2024-01-01T00:00:00.000Z" (JNum 7)
       ++ progressRounds sampleForm (JNum 7) 1 1
       ++ [ShowStatus successText "success"; LoadDownloads]).
Proof.
  apply (submission_succeeds (sampleWorld sampleForm smooth) (JNum 7) 1 30).
  - reflexivity.
  - eexists _, _, _, _, _. repeat split; reflexivity.
  - reflexivity.
  - intros [|i] Hi; [reflexivity | lia].
  - reflexivity.
  - lia.
  - lia.
Defined.

(** *** The button *)

Lemma pollLoop_no_loading fuel : forall p,
  always (fun e => isSetLoading e = false) (pollLoop fuel p).
Proof.
  induction fuel as [|fuel IH]; intros p; cbn [pollLoop]; [walk|].
  apply always_bind.
  - unfold pollSettle, checkWorkflowStatusSettle, showStatus, loadDownloads.
    walk; reflexivity.
  - intros [|]; [|walk]. apply always_bind; [|auto].
    unfold pollSend, checkWorkflowStatusSend. walk; reflexivity.
Qed.

Lemma dispatchAndPoll_loading data w :
  exists t,
    effects (dispatchAndPoll data) w = t ++ [SetLoading false]
    /\ Forall (fun e => isSetLoading e = false) t.
Proof.
  unfold dispatchAndPoll.
  match goal with
  | |- context [tryFinally ?m _] =>
      exists (effects m w);
      assert (Hm : always (fun e => isSetLoading e = false) m)
  end.
  { unfold triggerWorkflow, getLatestWorkflowRun, pollWorkflowStatus, pollSend,
      checkWorkflowStatusSend, showStatus, showWorkflowLink.
    walk; reflexivity. }
  split; [|apply Hm].
  unfold effects, tryFinally, setLoading, emit.
  match goal with |- context [?m w] => destruct (m w) as [[r w1] t1] end.
  reflexivity.
Qed.

(** The button is disabled once and enabled again once, in that order, by
    every submission that passes validation, whatever the network does; a
    submission that validation blocks leaves the button alone. *)
Theorem button_disabled_then_enabled (w : world) (fuel : nat) :
  List.filter isSetLoading (effects (submission fuel) w) =
    match outcome (validateForm (form w)) w with
    | inr true => [SetLoading true; SetLoading false]
    | _ => []
    end.
Proof.
  destruct (validateForm_cases (form w) w) as [Hv|[Hv|Hv]].
  - assert (Ho : outcome (validateForm (form w)) w = inr true)
      by (unfold outcome; now rewrite Hv).
    rewrite Ho. unfold submission.
    match goal with
    | |- context [effects (handleSubmit ≫= ?k) w] =>
        destruct (bind_tail (fun e => isSetLoading e = false) handleSubmit k w)
          as (t & E & Ht);
          [intros [p|]; [apply pollLoop_no_loading | walk]|];
        rewrite E; clear E
    end.
    unfold effects at 1. rewrite (handleSubmit_valid w Ho). cbn [snd].
    destruct (dispatchAndPoll_loading (form w) (saved w)) as (t' & E' & Ht').
    rewrite E', !List.filter_app.
    now rewrite (filter_none _ _ Ht), (filter_none _ _ Ht').
  - unfold outcome, effects. now rewrite Hv, (submission_blocked _ _ _ Hv).
  - unfold outcome, effects. now rewrite Hv, (submission_blocked _ _ _ Hv).
Qed.

(** *** What a submission leaves untouched *)

(** A submission changes the storage under the two keys only, and changes
    no input of the form: the credential is neither stored nor cleared. *)
Theorem submission_frame (w : world) (fuel : nat) (key : string) :
  key <> "repoOwner" -> key <> "repoName" ->
  localStorage (after (submission fuel) w) !! key = localStorage w !! key
  /\ form (after (submission fuel) w) = form w.
Proof.
  intros Ho Hr.
  destruct (validateForm_cases (form w) w) as [Hv|[Hv|Hv]].
  - assert (Hval : outcome (validateForm (form w)) w = inr true)
      by (unfold outcome; now rewrite Hv).
    destruct (submission_valid fuel w Hval) as [(Hs & Hf & _) _].
    rewrite Hs, Hf. split; [|reflexivity].
    unfold saved. cbn [localStorage setStorage].
    now rewrite !lookup_insert_ne by congruence.
  - unfold after. now rewrite (submission_blocked _ _ _ Hv).
  - unfold after. now rewrite (submission_blocked _ _ _ Hv).
Qed.

Lemma submission_frame_witness :
  localStorage (after (submission 30) (sampleWorld sampleForm smooth)) !! "githubToken"
  = None.
Proof.
  apply (submission_frame (sampleWorld sampleForm smooth) 30 "githubToken");
    discriminate.
Defined.

(** Of two submissions that pass validation, the later one decides what is
    stored: the storage is as if only the second had been made. *)
Theorem later_submission_wins (w : world) (second : formData) (fuel fuel' : nat) :
  outcome (validateForm (form w)) w = inr true ->
  let w1 := setForm (after (submission fuel) w) second in
  outcome (validateForm second) w1 = inr true ->
  localStorage (after (submission fuel') w1)
  = <["repoName" := repoName second]>
      (<["repoOwner" := repoOwner second]> (localStorage w)).
Proof.
  intros Hv w1 Hv2.
  destruct (submission_valid fuel w Hv) as [(Hs & _) _].
  destruct (submission_valid fuel' w1 Hv2) as [(Hs2 & _) _].
  rewrite Hs2. unfold saved, w1.
  cbn [localStorage setStorage setForm form]. rewrite Hs.
  unfold saved. cbn [localStorage setStorage].
  rewrite (insert_insert_ne _ "repoOwner" "repoName") by discriminate.
  now rewrite !insert_insert_eq.
Qed.

Lemma later_submission_wins_witness :
  localStorage
    (after (submission 30)
       (setForm (after (submission 30) (sampleWorld sampleForm offline))
          (FormData "https://youtu.be/z" "other" "audio" "hubot" "clips")))
  = <["repoName" := "clips"]> (<["repoOwner" := "hubot"]> ∅).
Proof.
  apply (later_submission_wins (sampleWorld sampleForm offline)
           (FormData "https://youtu.be/z" "other" "audio" "hubot" "clips") 30 30);
    reflexivity.
Defined.

(** *** The page load *)

(** [init()] sends no request and writes nothing to the storage; it refreshes
    the downloads listing and puts the stored owner and repo name into their
    inputs.  A key that is missing, or that holds the empty string, leaves
    its input as the document has it, independently of the other key; the
    other three inputs are never touched. *)
Theorem page_load (w : world) :
  effects init w = [LoadDownloads]
  /\ outcome init w = inr tt
  /\ localStorage (after init w) = localStorage w
  /\ sent (after init w) = sent w
  /\ form (after init w) =
       FormData (videoUrl (form w)) (githubToken (form w)) (downloadType (form w))
         (match localStorage w !! "repoOwner" with
          | Some (String c s) => String c s
          | _ => repoOwner (form w)
          end)
         (match localStorage w !! "repoName" with
          | Some (String c s) => String c s
          | _ => repoName (form w)
          end).
Proof.
  unfold effects, outcome, after, init, loadSavedRepoInfo.
  step. unfold getItem. do 2 step. cbn [fst snd].
  destruct (localStorage w !! "repoOwner") as [[|c s]|];
    destruct (localStorage w !! "repoName") as [[|c' s']|];
    cbn [whenSaved str_falsy]; step; cbn; destruct (form w); repeat split.
Qed.

(** *** What a failed status request logs *)

(** The three ways a status request fails, each ending the loop with one line
    on the console and nothing on the page: [fetch] rejects and its error is
    logged; the answer is outside 200-299 and ['Failed to check workflow
    status'] is logged, whatever the body says; the body does not parse and
    the error of the parser is logged. *)
Theorem failed_status_request_logs (p : pending) (w : world) (fuel : nat) :
  let logged e := (inr Stopped, w, [ConsoleError "Error polling workflow status:" e]) in
  (forall e, network w (ticket p) = inl e -> pollLoop (S fuel) p w = logged e)
  /\ (forall r, network w (ticket p) = inr r -> ok r = false ->
      pollLoop (S fuel) p w = logged (Error "Failed to check workflow status"))
  /\ (forall r e, network w (ticket p) = inr r -> ok r = true -> json r = inl e ->
      pollLoop (S fuel) p w = logged e).
Proof.
  cbn zeta. repeat split.
  - intros e Hn. apply pollLoop_stops, pollSettle_throws.
    unfold outcome, checkWorkflowStatusSettle, settle. rewrite run_bind. cbn.
    now rewrite Hn.
  - intros r Hn Hok. apply pollLoop_stops, pollSettle_throws.
    unfold outcome, checkWorkflowStatusSettle, settle. rewrite run_bind. cbn.
    now rewrite Hn, Hok.
  - intros r e Hn Hok Hj. apply pollLoop_stops, pollSettle_throws.
    unfold outcome, checkWorkflowStatusSettle, settle. rewrite run_bind. cbn.
    now rewrite Hn, Hok, Hj.
Qed.

Lemma failed_status_request_logs_witness :
  pollLoop 30 (Pending sampleForm (JNum 7) 1 0)
    (setSent (sampleWorld sampleForm failing) 1)
  = (inr Stopped, setSent (sampleWorld sampleForm failing) 1,
     [ConsoleError "Error polling workflow status:"
        (Error "Failed to check workflow status")]).
Proof.
  apply (proj1 (proj2 (failed_status_request_logs
                         (Pending sampleForm (JNum 7) 1 0)
                         (setSent (sampleWorld sampleForm failing) 1) 29))
           (Response 500 "Internal Server Error"
              (inl (Error "Unexpected token '<'"))));
    reflexivity.
Defined.

(** *** The requests of a submission *)

Lemma pollLoop_asks_for_its_run fuel : forall p,
  always (fun e => isFetch e = true ->
                   e = Fetch (statusRequest (pendingData p) (pendingRun p)))
    (pollLoop fuel p).
Proof.
  induction fuel as [|fuel IH]; intros p; cbn [pollLoop]; [walk|].
  apply always_bind.
  - unfold pollSettle, checkWorkflowStatusSettle, showStatus, loadDownloads.
    walk; discriminate.
  - intros [|]; [|walk]. intros w. unfold effects. rewrite run_bind, pollSend_run.
    specialize (IH (Pending (pendingData p) (pendingRun p) (N.succ (attempts p))
                      (sent w)) (setSent w (S (sent w)))).
    unfold effects in IH. cbn [pendingData pendingRun] in IH.
    destruct (pollLoop fuel _ _) as [[r w2] t2]. cbn [fst snd app].
    constructor; [reflexivity | exact IH].
Qed.

Example printable_run_id : printable (JNum 16887661234) = true.
Proof. reflexivity. Qed.

Example not_printable_beyond_safe_integers :
  printable (JNum 1152921504606846976) = false.
Proof. reflexivity. Qed.

Example not_printable_own_toString :
  printable (JObj [("toString", JNum 1)]) = false.
Proof. reflexivity. Qed.

(** The poller asks for the run it was given and for nothing else: every
    request it sends is a [GET] of the run's address on the API, made of the
    owner and the repo name of the form as they were at the submission and
    of the identifier, with the credential and the media type as its two
    headers and no body.  The run identifier is a [printable] one. *)
Theorem poller_asks_for_its_run (data : formData) (run : jsval) (w : world)
    (fuel : nat) :
  printable run = true ->
  Forall
    (fun e =>
       isFetch e = true ->
       e = Fetch
             (Request "GET"
                ("https://api.github.com/repos/" +:+ repoOwner data +:+ "/"
                   +:+ repoName data +:+ "/actions/runs/" +:+ toString run)
                [("Authorization", "token " +:+ githubToken data);
                 ("Accept", "application/vnd.github.v3+json")]
                None))
    (effects (poller fuel data run) w).
Proof.
  intros _. destruct (truthy run) eqn:Hr.
  - unfold effects at 1. rewrite (poller_run _ _ _ _ Hr). cbn [snd].
    constructor; [reflexivity|].
    apply (pollLoop_asks_for_its_run fuel (Pending data run 1 (sent w))).
  - unfold effects, poller, pollWorkflowStatus. rewrite Hr. cbn [negb]. step.
    constructor.
Qed.

Lemma poller_asks_for_its_run_witness :
  Forall
    (fun e =>
       isFetch e = true ->
       e = Fetch
             (Request "GET" "https://api.github.com/repos/octo/videos/actions/runs/7"
                [("Authorization", "token token");
                 ("Accept", "application/vnd.github.v3+json")]
                None))
    (effects (poller 30 sampleForm (JNum 7)) (sampleWorld sampleForm succeedsAtThird)).
Proof.
  apply (poller_asks_for_its_run sampleForm (JNum 7)
           (sampleWorld sampleForm succeedsAtThird) 30).
  reflexivity.
Defined.

Lemma effects_getLatestWorkflowRun data wt w :
  effects (getLatestWorkflowRun data wt) w = [Delay 2000; Fetch (listingRequest data)].
Proof.
  unfold effects. destruct (network w (sent w)) as [e|r] eqn:Hn.
  - now rewrite (locator_rejected _ _ _ _ Hn).
  - now rewrite (locator_answered _ _ _ _ Hn).
Qed.

(** The dispatch client sends one request, or two when the dispatch is
    accepted. *)
Lemma triggerWorkflow_requests data w :
  length (List.filter isFetch (effects (triggerWorkflow data) w)) <= 2.
Proof.
  destruct (network w (sent w)) as [e|r] eqn:Hn.
  - unfold effects. rewrite (triggerWorkflow_rejected _ _ _ Hn). cbn. lia.
  - destruct (ok r) eqn:Hok.
    + unfold effects at 1. rewrite (triggerWorkflow_accepted _ _ _ Hn Hok).
      cbn zeta. cbn [snd]. rewrite effects_getLatestWorkflowRun. cbn. lia.
    + rewrite (triggerWorkflow_refused_effects data w r Hn Hok). cbn. lia.
Qed.

Lemma dispatchAndPoll_requests data w :
  length (List.filter isFetch (effects (dispatchAndPoll data) w)) <= 3.
Proof.
  pose proof (triggerWorkflow_requests data w) as Ht.
  destruct (outcome (triggerWorkflow data) w) as [e|res] eqn:Ho.
  - unfold effects at 1. rewrite (dispatchAndPoll_reports _ _ _ Ho). cbn [snd].
    rewrite List.filter_app, length_app. cbn. lia.
  - destruct (truthy (runId res)) eqn:Hr.
    + unfold effects at 1. rewrite (dispatchAndPoll_polls _ _ _ Ho Hr).
      cbn zeta. cbn [snd]. rewrite List.filter_app, length_app. cbn. lia.
    + unfold effects at 1. rewrite (dispatchAndPoll_locator_miss _ _ _ Ho Hr).
      cbn [snd]. rewrite List.filter_app, length_app. cbn. lia.
Qed.

(** A submission sends at most 32 requests, whatever the network answers and
    however far the loop is unrolled: the dispatch, the listing, and the
    status requests of the 30 attempts. *)
Theorem submission_request_bound (w : world) (fuel : nat) :
  length (List.filter isFetch (effects (submission fuel) w)) <= 32.
Proof.
  destruct (validateForm_cases (form w) w) as [Hv|[Hv|Hv]].
  - assert (Ho : outcome (validateForm (form w)) w = inr true)
      by (unfold outcome; now rewrite Hv).
    unfold effects, submission. rewrite run_bind, (handleSubmit_valid w Ho).
    pose proof (dispatchAndPoll_requests (form w) (saved w)) as Hd.
    pose proof (dispatchAndPoll_pending (form w) (saved w)) as Hp.
    unfold effects, outcome, after in *.
    destruct (dispatchAndPoll (form w) (saved w)) as [[[e|[p|]] w1] t1];
      cbn [fst snd] in *.
    + rewrite List.filter_app, length_app. cbn. lia.
    + destruct (Hp p eq_refl) as [_ Ha].
      pose proof (pollLoop_bounded fuel p w1) as Hl. cbn zeta in Hl.
      unfold effects in Hl. rewrite Ha in Hl.
      destruct (pollLoop fuel p w1) as [[r w2] t2]. cbn [fst snd] in *.
      rewrite !List.filter_app, !length_app. cbn. lia.
    + cbn [mret M_ret ret fst snd]. rewrite app_nil_r.
      rewrite List.filter_app, length_app. cbn. lia.
  - unfold effects. rewrite (submission_blocked _ _ _ Hv). cbn. lia.
  - unfold effects. rewrite (submission_blocked _ _ _ Hv). cbn. lia.
Qed.
